(** * bids-duckdb: entity extraction, schema, loaders and benchmark dispatch

    A shallow embedding of the Python package [bids_duckdb]
    (schema.py, base.py, approach1_sql.py, approach2_python.py,
    approach3_table_function.py, benchmark.py) and the properties of it
    that the specification states.

    Python [str] is [string]; a Python [dict] with string keys is an
    association list in insertion order ([dict]); exceptions are the
    [Raise] case of [res]. *)

From Stdlib Require Import Ascii String List Bool Arith Lia.
From stdpp Require Import base strings list gmap.

Local Open Scope list_scope.

(** ** Python results and exceptions *)

(** The exception classes the package raises or lets through.
    [EngineError] stands for [duckdb.Error], raised by [con.execute]
    and [con.create_function]. *)
Inductive exn : Type :=
| FileNotFoundError (msg : string)
| ValueError (msg : string)
| TypeError (msg : string)
| AttributeError (msg : string)
| EngineError (msg : string).

Inductive res (A : Type) : Type :=
| Ok (a : A)
| Raise (e : exn).
Arguments Ok {A} a.
Arguments Raise {A} e.

Definition is_engine_error (e : exn) : bool :=
  match e with EngineError _ => true | _ => false end.

(** ** Characters and text scanning (module [re], [pathlib]) *)

(** The character class [[a-zA-Z0-9]]. *)
Definition is_alnum (c : ascii) : bool :=
  let n := nat_of_ascii c in
  ((48 <=? n)%nat && (n <=? 57)%nat) || ((65 <=? n)%nat && (n <=? 90)%nat)
  || ((97 <=? n)%nat && (n <=? 122)%nat).

(** The longest run of class characters at the head of [s], and what
    follows it: what a greedy [[a-zA-Z0-9]+] consumes. *)
Fixpoint span_alnum (s : string) : string * string :=
  match s with
  | String c s' =>
      if is_alnum c
      then let (r, t) := span_alnum s' in (String c r, t)
      else ("", s)
  | EmptyString => ("", "")
  end.

(** [([a-zA-Z0-9]+)-([a-zA-Z0-9]+)] matched at the head of [s]: the
    two groups and the text after the match.  The first group is
    greedy and every character it could give back is not a hyphen, so
    the match succeeds exactly when the whole run is followed by a
    hyphen and by one class character at least. *)
Definition match_at (s : string) : option (string * string * string) :=
  let (k, t) := span_alnum s in
  match k, t with
  | String _ _, String "-"%char t' =>
      let (v, u) := span_alnum t' in
      match v with
      | String _ _ => Some (k, v, u)
      | EmptyString => None
      end
  | _, _ => None
  end.

(** [re.finditer(pattern, s)] as the list of [match.groups()]: the
    leftmost match, then the scan goes on after it; where no match
    starts, the scan moves one character on. *)
Fixpoint finditer_fuel (n : nat) (s : string) : list (string * string) :=
  match n with
  | O => []
  | S n' =>
      match match_at s with
      | Some (k, v, u) => (k, v) :: finditer_fuel n' u
      | None =>
          match s with
          | String _ s' => finditer_fuel n' s'
          | EmptyString => []
          end
      end
  end.

Definition finditer (s : string) : list (string * string) :=
  finditer_fuel (S (String.length s)) s.

(** [str.split("/")] *)
Fixpoint split_slash (s : string) : list string :=
  match s with
  | EmptyString => [""]
  | String c s' =>
      if Ascii.eqb c "/"%char
      then "" :: split_slash s'
      else match split_slash s' with
           | p :: ps => String c p :: ps
           | [] => [String c ""]
           end
  end.

(** The components [PurePosixPath(s).parts] keeps apart from the
    root: empty components and [.] are dropped. *)
Definition is_component (p : string) : bool :=
  negb (String.eqb p "") && negb (String.eqb p ".").

(** [Path(s).name]: the last component, [""] when there is none. *)
Definition path_name (s : string) : string :=
  List.last (List.filter is_component (split_slash s)) "".

(** [s] without its prefix [p], when it has it. *)
Fixpoint strip_prefix (p s : string) : option string :=
  match p, s with
  | EmptyString, _ => Some s
  | String a p', String b s' =>
      if Ascii.eqb a b then strip_prefix p' s' else None
  | String _ _, EmptyString => None
  end.

(** The pattern [short-([a-zA-Z0-9]+)] matched at the head of [s],
    for a short name of class characters: group 1, the longest run of
    class characters after [short-], when there is one. *)
Definition extract_at (short s : string) : option string :=
  match strip_prefix (short +:+ "-") s with
  | Some t =>
      match fst (span_alnum t) with
      | EmptyString => None
      | v => Some v
      end
  | None => None
  end.

(** The pattern searched in [s]: group 1 at the leftmost place of
    [s] where the pattern matches; [None] where there is none. *)
Fixpoint regexp_search (short s : string) : option string :=
  match extract_at short s with
  | Some v => Some v
  | None =>
      match s with
      | String _ s' => regexp_search short s'
      | EmptyString => None
      end
  end.

(** The engine's [regexp_extract(s, 'short-([a-zA-Z0-9]+)', 1)]: the
    group where the pattern is found, the empty text (not [NULL])
    where it is not. *)
Definition regexp_extract (short s : string) : string :=
  match regexp_search short s with
  | Some v => v
  | None => ""
  end.

(** ** Texts pasted into statements

    The loaders build their statements with f-strings.  A text pasted
    between apostrophes stays one literal when it holds no apostrophe;
    a name pasted bare stays one name when it is made of letters,
    digits and underscores and does not begin with a digit. *)
Fixpoint plain_text (s : string) : bool :=
  match s with
  | EmptyString => true
  | String c s' => negb (Ascii.eqb c "'"%char) && plain_text s'
  end.

Definition is_digit (c : ascii) : bool :=
  let n := nat_of_ascii c in (48 <=? n)%nat && (n <=? 57)%nat.

Definition is_label_char (c : ascii) : bool :=
  is_alnum c || Ascii.eqb c "_"%char.

Fixpoint label_chars (s : string) : bool :=
  match s with
  | EmptyString => true
  | String c s' => is_label_char c && label_chars s'
  end.

Definition plain_label (s : string) : bool :=
  match s with
  | EmptyString => false
  | String c s' => is_label_char c && negb (is_digit c) && label_chars s'
  end.

(** ** Ordered dictionaries *)

Definition dict (V : Type) : Type := list (string * V).

Fixpoint dict_get {V} (k : string) (d : dict V) : option V :=
  match d with
  | [] => None
  | (k', v) :: d' => if String.eqb k k' then Some v else dict_get k d'
  end.

Definition dict_mem {V} (k : string) (d : dict V) : bool :=
  match dict_get k d with Some _ => true | None => false end.

(** [d[k] = v]: a key already there keeps its place. *)
Fixpoint dict_set {V} (k : string) (v : V) (d : dict V) : dict V :=
  match d with
  | [] => [(k, v)]
  | (k', v') :: d' =>
      if String.eqb k k' then (k', v) :: d' else (k', v') :: dict_set k v d'
  end.

Definition dict_keys {V} (d : dict V) : list string := map fst d.

(** [d.update(e)] and [{**d, **e}] *)
Definition dict_update {V} (d e : dict V) : dict V :=
  fold_left (fun acc kv => dict_set (fst kv) (snd kv) acc) e d.

(** ** schema.py *)

(** ** The remote definition

    [yaml.safe_load(response.text)] gives a Python object.  The model
    keeps the shapes [load_entities] and the projections tell apart:
    [None] (an empty document), an object without [len()] (a number or
    a boolean), an object with [len()] that is no mapping (a text or a
    list), and a mapping from full names to definitions, each a
    mapping of text fields as in [entities.yaml].  The objects that
    are no mapping carry the name of their type, which the messages
    of [AttributeError] begin with. *)
Inductive yaml_doc : Type :=
| YNone
| YUnsized (type_name : string)
| YSized (type_name : string) (n : nat)
| YEntities (d : dict (dict string)).

Definition type_name_of (doc : yaml_doc) : string :=
  match doc with
  | YNone => "NoneType"
  | YUnsized type_name | YSized type_name _ => type_name
  | YEntities _ => "dict"
  end.

(** The message of [obj.attribute] on an object without it. *)
Definition no_attribute (doc : yaml_doc) (attribute : string) : string :=
  "'" +:+ type_name_of doc +:+ "' object has no attribute '"
  +:+ attribute +:+ "'".

(** What one pass through the [try] block of [load_entities] meets. *)
Inductive fetch_outcome : Type :=
| RequestRaises (msg : string)   (* requests.get raised *)
| StatusRaises (msg : string)    (* response.raise_for_status() raised *)
| ParseRaises (msg : string)     (* yaml.safe_load raised *)
| Loaded (doc : yaml_doc).

Definition fetch_fails (o : fetch_outcome) : bool :=
  match o with Loaded _ => false | _ => true end.

Record BIDSSchema : Type := mkBIDSSchema {
  schema_version : string;
  _entities : yaml_doc;                          (* None is [YNone] *)
  _entity_short_to_full : option (dict string)
}.

(** [BIDSSchema.__init__] *)
Definition BIDSSchema_init (schema_version : string) : BIDSSchema :=
  mkBIDSSchema schema_version YNone None.

Definition base_url (self : BIDSSchema) : string :=
  "https://raw.githubusercontent.com/bids-standard/bids-specification/"
  +:+ schema_version self +:+ "/src/schema/objects".

Definition _get_fallback_entities : dict (dict string) :=
  [ ("subject", [("name", "sub"); ("display_name", "Subject"); ("type", "string")]);
    ("session", [("name", "ses"); ("display_name", "Session"); ("type", "string")]);
    ("task", [("name", "task"); ("display_name", "Task"); ("type", "string")]);
    ("acquisition", [("name", "acq"); ("display_name", "Acquisition"); ("type", "string")]);
    ("ceagent", [("name", "ce"); ("display_name", "Contrast Enhancing Agent"); ("type", "string")]);
    ("reconstruction", [("name", "rec"); ("display_name", "Reconstruction"); ("type", "string")]);
    ("direction", [("name", "dir"); ("display_name", "Phase Encoding Direction"); ("type", "string")]);
    ("run", [("name", "run"); ("display_name", "Run"); ("type", "string"); ("format", "index")]);
    ("echo", [("name", "echo"); ("display_name", "Echo"); ("type", "string"); ("format", "index")]);
    ("space", [("name", "space"); ("display_name", "Space"); ("type", "string")]);
    ("description", [("name", "desc"); ("display_name", "Description"); ("type", "string")]) ].

(** [len(obj)]: [None] where Python raises [TypeError]. *)
Definition py_len (doc : yaml_doc) : option nat :=
  match doc with
  | YNone | YUnsized _ => None
  | YSized _ n => Some n
  | YEntities d => Some (List.length d)
  end.

Definition is_none (doc : yaml_doc) : bool :=
  match doc with YNone => true | _ => false end.

(** [str.title()] on ASCII text. *)
Definition is_upper (c : ascii) : bool :=
  let n := nat_of_ascii c in (65 <=? n)%nat && (n <=? 90)%nat.
Definition is_lower (c : ascii) : bool :=
  let n := nat_of_ascii c in (97 <=? n)%nat && (n <=? 122)%nat.
Definition to_upper (c : ascii) : ascii :=
  if is_lower c then ascii_of_nat (nat_of_ascii c - 32) else c.
Definition to_lower (c : ascii) : ascii :=
  if is_upper c then ascii_of_nat (nat_of_ascii c + 32) else c.

Fixpoint title_from (prev_cased : bool) (s : string) : string :=
  match s with
  | EmptyString => EmptyString
  | String c s' =>
      let cased := is_upper c || is_lower c in
      String (if prev_cased then to_lower c else to_upper c)
             (title_from cased s')
  end.

Definition title (s : string) : string := title_from false s.

(** [d.get(k, default)] *)
Definition dict_get_default {V} (k : string) (default : V) (d : dict V) : V :=
  match dict_get k d with Some v => v | None => default end.

(** Truth value of [definition.get("name")]: [None] and the empty
    text are false. *)
Definition truthy (o : option string) : bool :=
  match o with
  | Some (String _ _) => true
  | _ => false
  end.

Section Schema.

(** The network: what the [k]-th request of the process, to [url],
    meets.  The methods thread the number of requests made so far. *)
Variable net : nat -> string -> fetch_outcome.

(** [BIDSSchema.load_entities] *)
Definition load_entities (self : BIDSSchema) (requests : nat)
  : yaml_doc * BIDSSchema * nat :=
  if negb (is_none (_entities self)) then (_entities self, self, requests)
  else
    let url := base_url self +:+ "/entities.yaml" in
    match net requests url with
    | Loaded doc =>
        let self' := mkBIDSSchema (schema_version self) doc
                                  (_entity_short_to_full self) in
        match py_len doc with
        | Some _ => (doc, self', S requests)
        | None => (YEntities _get_fallback_entities, self', S requests)
        end
    | _ => (YEntities _get_fallback_entities, self, S requests)
    end.

(** The loop of [get_entity_mapping], on the items of the loaded
    mapping in their order. *)
Definition short_to_full_of (entities : dict (dict string)) : dict string :=
  fold_left
    (fun m '(full_name, definition) =>
       let short_name := dict_get "name" definition in
       if truthy short_name
       then dict_set (default "" short_name) full_name m
       else m)
    entities [].

(** [BIDSSchema.get_entity_mapping] *)
Definition get_entity_mapping (self : BIDSSchema) (requests : nat)
  : res (dict string) * BIDSSchema * nat :=
  match _entity_short_to_full self with
  | Some m => (Ok m, self, requests)
  | None =>
      let '(entities, self1, requests1) := load_entities self requests in
      let with_mapping m :=
        mkBIDSSchema (schema_version self1) (_entities self1) (Some m) in
      match entities with
      | YEntities d =>
          let m := short_to_full_of d in
          (Ok m, with_mapping m, requests1)
      | _ =>
          (Raise (AttributeError (no_attribute entities "items")),
           with_mapping [], requests1)
      end
  end.

(** The loop of [get_entity_display_names]. *)
Definition display_names_of (entities : dict (dict string)) : dict string :=
  fold_left
    (fun mapping '(_, definition) =>
       let short_name := dict_get "name" definition in
       let display_name :=
         dict_get_default "display_name"
           (title (dict_get_default "name" "" definition)) definition in
       if truthy short_name
       then dict_set (default "" short_name) display_name mapping
       else mapping)
    entities [].

(** [BIDSSchema.get_entity_display_names] *)
Definition get_entity_display_names (self : BIDSSchema) (requests : nat)
  : res (dict string) * BIDSSchema * nat :=
  let '(entities, self1, requests1) := load_entities self requests in
  match entities with
  | YEntities d => (Ok (display_names_of d), self1, requests1)
  | _ => (Raise (AttributeError (no_attribute entities "values")),
          self1, requests1)
  end.

(** [BIDSSchema.get_all_entity_short_names] *)
Definition get_all_entity_short_names (self : BIDSSchema) (requests : nat)
  : res (list string) * BIDSSchema * nat :=
  match get_entity_mapping self requests with
  | (Ok m, self1, requests1) => (Ok (dict_keys m), self1, requests1)
  | (Raise e, self1, requests1) => (Raise e, self1, requests1)
  end.

(** The process: the slot of [lru_cache(maxsize=1)] around
    [get_default_schema], holding the one shared instance, and the
    number of requests made. *)
Record process : Type := mkProcess {
  default_schema : option BIDSSchema;
  requests_made : nat
}.

(** [get_default_schema()]: the instance, which is also what the
    slot of the resulting process holds. *)
Definition get_default_schema (p : process) : BIDSSchema * process :=
  match default_schema p with
  | Some schema => (schema, p)
  | None =>
      let schema := BIDSSchema_init "master" in
      let '(_, schema1, requests1) := load_entities schema (requests_made p) in
      (schema1, mkProcess (Some schema1) requests1)
  end.

(** [get_default_schema().method()]: the method runs on the shared
    instance, whose changes stay in the slot. *)
Definition on_default_schema {A}
    (method : BIDSSchema -> nat -> A * BIDSSchema * nat) (p : process)
  : A * process :=
  let '(schema, p1) := get_default_schema p in
  let '(a, schema1, requests1) := method schema (requests_made p1) in
  (a, mkProcess (Some schema1) requests1).

End Schema.

(** ** base.py *)

(** The fields of a [BIDSLoader] the loading methods read.  The
    constructor stores [schema.get_entity_mapping()], the object the
    schema caches, so [self.schema.get_all_entity_short_names()] is
    the list of keys of [entity_short_to_full]. *)
Record BIDSLoader : Type := mkBIDSLoader {
  bids_root : string;
  entity_short_to_full : dict string;
  entity_display_names : dict string
}.

(** [BIDSLoader.parse_bids_entities] *)
Definition parse_bids_entities (self : BIDSLoader) (filepath : string)
  : dict string :=
  let filename := path_name filepath in
  fold_left
    (fun entities '(key, value) =>
       if dict_mem key (entity_short_to_full self)
       then dict_set key value entities
       else entities)
    (finditer filename) [].

(** [BIDSLoader.get_entity_full_name] *)
Definition get_entity_full_name (self : BIDSLoader) (short_name : string)
  : string :=
  dict_get_default short_name short_name (entity_short_to_full self).

(** [BIDSLoader.get_entity_column_name] *)
Definition get_entity_column_name (self : BIDSLoader) (short_name : string)
    (use_full_names : bool) : string :=
  if use_full_names then get_entity_full_name self short_name else short_name.

(** [{self.get_entity_full_name(k): v for k, v in entities.items()}] *)
Definition to_full_names (self : BIDSLoader) (entities : dict string)
  : dict string :=
  fold_left
    (fun acc '(k, v) => dict_set (get_entity_full_name self k) v acc)
    entities [].

(** The entity mapping the two host variants attach to a file. *)
Definition file_entities (self : BIDSLoader) (use_full_names : bool)
    (path : string) : dict string :=
  let entities := parse_bids_entities self path in
  if use_full_names then to_full_names self entities else entities.

(** [{"filepath": str(p), "filename": p.name, **entities}] *)
Definition file_info (path : string) (entities : dict string) : dict string :=
  dict_update [("filepath", path); ("filename", path_name path)] entities.

(** ** The engine

    The query engine is an external collaborator.  Its model covers
    the statements the loaders build; one constructor stands for each
    statement text.  A cell is a text or SQL [NULL]; the types the
    engine detects for the columns are not part of the model. *)

Definition value : Type := option string.

Record table : Type := mkTable {
  columns : list string;
  rows : list (list value)
}.

(** The file system as the host and the engine see it: the paths a
    glob pattern selects, in the order they are listed; the table the
    engine's [read_csv] gives for a path, with the options the loaders
    pass, and the re-serialised content of a JSON file ([None]: the
    read fails); whether a path exists. *)
Record filesystem : Type := mkFilesystem {
  glob_paths : string -> list string;
  read_csv : string -> option table;
  read_json : string -> option string;   (* json.dumps(json.load(f)) *)
  path_exists : string -> bool
}.

(** [str(root / pattern)] *)
Definition join_path (root pattern : string) : string :=
  root +:+ "/" +:+ pattern.

Inductive source : Type :=
| ReadCsv (path : string)
    (* read_csv('path', delim='\t', auto_detect=true, ignore_errors=true) *)
| ReadCsvFilename (glob_pattern : string)
    (* read_csv('glob', delim='\t', auto_detect=true, filename=true, ...) *)
| ScanFunction (name : string) (arg : string).
    (* name('arg') *)

Inductive select_item : Type :=
| Star
| Col (name : string)
| Lit (text : string) (alias : string)                  (* 'text' AS alias *)
| RegexpExtract (col short alias : string).
    (* regexp_extract(col, 'short-([a-zA-Z0-9]+)', 1) AS alias *)

Record select : Type := mkSelect {
  items : list select_item;
  from : source
}.

(** A query is its [SELECT]s joined by [UNION ALL]. *)
Inductive statement : Type :=
| CreateTableColumns (name : string) (cols : list string)
    (* CREATE OR REPLACE TABLE name (c VARCHAR, ...) *)
| CreateTableAs (name : string) (q : list select)
    (* CREATE OR REPLACE TABLE name AS q *)
| CreateView (name : string) (q : list select).
    (* CREATE OR REPLACE VIEW name AS q *)

(** A registered row-producing function: the closure of
    [_register_functions], that is which scanner it is, the loader it
    captured and the [use_full_names] it captured. *)
Inductive scanner_kind : Type := ScanTsv | ScanJson.

Record scanner : Type := mkScanner {
  scan_kind : scanner_kind;
  scan_loader : BIDSLoader;
  scan_use_full_names : bool
}.

Inductive entry : Type :=
| Table (t : table)
| View (q : list select).

Record engine : Type := mkEngine {
  catalog : gmap string entry;
  functions : gmap string scanner
}.

(** [duckdb.connect()] *)
Definition connect : engine := mkEngine ∅ ∅.

(** Computations on a state that may raise; a raised exception keeps
    the state changes made before it, as in Python. *)
Definition M (S A : Type) : Type := S -> res A * S.

Definition ret {S A} (a : A) : M S A := fun s => (Ok a, s).
Definition raise {S A} (e : exn) : M S A := fun s => (Raise e, s).
Definition bind {S A B} (m : M S A) (k : A -> M S B) : M S B :=
  fun s => match m s with
           | (Ok a, s') => k a s'
           | (Raise e, s') => (Raise e, s')
           end.
Definition lift_res {S A} (r : res A) : M S A := fun s => (r, s).

Notation "x <- m ;; k" := (bind m (fun x => k))
  (at level 100, m at next level, right associativity).
Notation "m ;;; k" := (bind m (fun _ => k))
  (at level 100, right associativity).

(** A row with its column names; a cell that is not there reads as
    [NULL]. *)
Definition cell (c : string) (named_row : list (string * value)) : value :=
  match dict_get c named_row with
  | Some v => v
  | None => None
  end.

Definition named_rows (t : table) : list (list (string * value)) :=
  map (fun row => combine (columns t) row) (rows t).

(** The engine's schema-unioning of rows given with their column
    names, from sources with the column lists [headers]: the columns
    in the order they first appear, a missing cell [NULL]. *)
Definition add_column (cols : list string) (c : string) : list string :=
  if existsb (String.eqb c) cols then cols else cols ++ [c].

Definition union_columns (headers : list (list string)) : list string :=
  fold_left (fun cols header => fold_left add_column header cols) headers [].

Definition union_named (headers : list (list string))
    (rs : list (list (string * value))) : table :=
  let cols := union_columns headers in
  mkTable cols (map (fun r => map (fun c => cell c r) cols) rs).

(** Rows that come from a generator bring their columns themselves. *)
Definition union_by_name (rs : list (list (string * value))) : table :=
  union_named (map (map fst) rs) rs.

(** [dict(zip(columns, row))] *)
Definition zip_dict (cols : list string) (row : list value) : dict value :=
  fold_left (fun d '(c, v) => dict_set c v d) (combine cols row) [].

Definition text_values (d : dict string) : dict value :=
  map (fun '(k, v) => (k, Some v)) d.

Fixpoint map_res {A B} (f : A -> res B) (l : list A) : res (list B) :=
  match l with
  | [] => Ok []
  | a :: l' =>
      match f a with
      | Raise e => Raise e
      | Ok b => match map_res f l' with
                | Raise e => Raise e
                | Ok bs => Ok (b :: bs)
                end
      end
  end.

(** [q1 UNION ALL q2 ...]: the operands are matched by position; they
    need the same number of columns, and the result has the column
    names of the first. *)
Definition union_all (ts : list table) : res table :=
  match ts with
  | [] => Raise (EngineError "Parser Error: syntax error at end of input")
  | t :: rest =>
      if forallb (fun u => List.length (columns u) =? List.length (columns t))%nat rest
      then Ok (mkTable (columns t) (flat_map rows ts))
      else Raise (EngineError
        "Binder Error: Set operations can only apply to expressions with the same number of result columns")
  end.

(** The engine compares names without regard to case. *)
Fixpoint lower (s : string) : string :=
  match s with
  | EmptyString => EmptyString
  | String c s' => String (to_lower c) (lower s')
  end.

Definition same_name (a b : string) : bool := String.eqb (lower a) (lower b).

Definition name_in (c : string) (cols : list string) : bool :=
  existsb (same_name c) cols.

Fixpoint distinct_names (cols : list string) : bool :=
  match cols with
  | [] => true
  | c :: rest => negb (name_in c rest) && distinct_names rest
  end.

(** The cell of the column called [c], whatever the case. *)
Fixpoint cell_named (c : string) (named_row : list (string * value)) : value :=
  match named_row with
  | [] => None
  | (k, v) :: rest => if same_name c k then v else cell_named c rest
  end.

(** [str(k)] in base ten. *)
Fixpoint decimal_fuel (fuel n : nat) (acc : string) : string :=
  match fuel with
  | O => acc
  | S fuel' =>
      let acc' := String (ascii_of_nat (48 + n mod 10)) acc in
      if (n / 10 =? 0)%nat then acc' else decimal_fuel fuel' (n / 10) acc'
  end.

Definition decimal (n : nat) : string := decimal_fuel (S n) n "".

(** The column names a table gets from a query: a name met before
    takes the suffix [_1], or the next number that makes it new. *)
Fixpoint fresh_suffix (fuel k : nat) (c : string) (seen : list string)
  : string :=
  let c' := c +:+ "_" +:+ decimal k in
  match fuel with
  | O => c'
  | S fuel' => if name_in c' seen then fresh_suffix fuel' (S k) c seen else c'
  end.

Fixpoint dedup_from (seen cols : list string) : list string :=
  match cols with
  | [] => []
  | c :: rest =>
      let c' := if name_in c seen
                then fresh_suffix (List.length seen) 1 c seen
                else c in
      c' :: dedup_from (c' :: seen) rest
  end.

Definition dedup_names (cols : list string) : list string :=
  dedup_from [] cols.

(** Whether a select is the statement the f-string makes: every
    pasted text is plain and every pasted name a plain label.  With
    another text the statement the engine receives is not this select
    (an apostrophe ends the literal early); the model has the parser
    refuse it, as it does for the paths and names met in practice. *)
Definition item_text_ok (it : select_item) : bool :=
  match it with
  | Star => true
  | Col name => plain_label name
  | Lit text alias => plain_text text && plain_label alias
  | RegexpExtract col short alias =>
      plain_label col && plain_text short && plain_label alias
  end.

Definition source_text_ok (src : source) : bool :=
  match src with
  | ReadCsv path => plain_text path
  | ReadCsvFilename glob_pattern => plain_text glob_pattern
  | ScanFunction name arg => plain_label name && plain_text arg
  end.

Definition select_text_ok (sel : select) : bool :=
  source_text_ok (from sel) && forallb item_text_ok (items sel).

Definition statement_text_ok (q : list select) : bool :=
  forallb select_text_ok q.

Section Engine.

Variable fs : filesystem.

(** The generator [scan_tsv_files] of [_register_functions], with
    the variables it closes over as arguments. *)
Definition scan_tsv_files (loader : BIDSLoader) (use_full_names : bool)
    (pattern : string) : list (dict value) :=
  flat_map
    (fun tsv_path =>
       let entities := file_entities loader use_full_names tsv_path in
       match (if plain_text tsv_path then read_csv fs tsv_path else None) with
       | Some result =>
           map (fun row =>
                  dict_update (zip_dict (columns result) row)
                              (text_values (file_info tsv_path entities)))
               (rows result)
       | None => []   (* except Exception: logger.warning *)
       end)
    (glob_paths fs (join_path (bids_root loader) pattern)).

(** The generator [scan_json_files]. *)
Definition scan_json_files (loader : BIDSLoader) (use_full_names : bool)
    (pattern : string) : list (dict value) :=
  map
    (fun json_path =>
       let entities := file_entities loader use_full_names json_path in
       let json_str := default "{}" (read_json fs json_path) in
       text_values
         (dict_update
            [("filepath", json_path); ("filename", path_name json_path);
             ("json_content", json_str)]
            entities))
    (glob_paths fs (join_path (bids_root loader) pattern)).

Definition run_scanner (sc : scanner) (arg : string) : list (dict value) :=
  match scan_kind sc with
  | ScanTsv => scan_tsv_files (scan_loader sc) (scan_use_full_names sc) arg
  | ScanJson => scan_json_files (scan_loader sc) (scan_use_full_names sc) arg
  end.

Definition read_csv_or_raise (path : string) : res table :=
  match read_csv fs path with
  | Some t => Ok t
  | None => Raise (EngineError ("IO Error: cannot read " +:+ path))
  end.

Definition eval_source (con : engine) (src : source) : res table :=
  match src with
  | ReadCsv path => read_csv_or_raise path
  | ReadCsvFilename glob_pattern =>
      match glob_paths fs glob_pattern with
      | [] => Raise (EngineError
                ("IO Error: No files found that match the pattern "
                 +:+ glob_pattern))
      | paths =>
          match map_res (fun p => match read_csv_or_raise p with
                                  | Ok t => Ok (p, t)
                                  | Raise e => Raise e
                                  end) paths with
          | Raise e => Raise e
          | Ok files =>
              (* the columns are those of the first file; a later file
                 gives them by name and may have more *)
              let schema := columns (snd (List.hd ("", mkTable [] []) files)) in
              if name_in "filename" schema
              then Raise (EngineError
                     "Binder Error: Option filename adds column filename, but a column with this name is also returned by the reader")
              else if forallb (fun '(p, t) =>
                                 forallb (fun c => name_in c (columns t)) schema)
                              files
              then Ok (mkTable (schema ++ ["filename"])
                         (flat_map
                            (fun '(p, t) =>
                               map (fun nr =>
                                      map (fun c => cell_named c nr) schema
                                      ++ [Some p])
                                   (named_rows t))
                            files))
              else Raise (EngineError
                     "Invalid Input Error: Schema mismatch in glob: a column read from the first file is not found in a later file")
          end
      end
  | ScanFunction name arg =>
      match functions con !! name with
      | Some sc => Ok (union_by_name (run_scanner sc arg))
      | None => Raise (EngineError
                  ("Catalog Error: Table Function with name " +:+ name
                   +:+ " does not exist"))
      end
  end.

Definition has_column (t : table) (c : string) : bool :=
  existsb (String.eqb c) (columns t).

Definition item_ok (t : table) (it : select_item) : bool :=
  match it with
  | Star | Lit _ _ => true
  | Col c => has_column t c
  | RegexpExtract c _ _ => has_column t c
  end.

Definition item_columns (t : table) (it : select_item) : list string :=
  match it with
  | Star => columns t
  | Col c => [c]
  | Lit _ alias => [alias]
  | RegexpExtract _ _ alias => [alias]
  end.

Definition item_values (t : table) (it : select_item) (row : list value)
  : list value :=
  match it with
  | Star => row
  | Col c => [cell c (combine (columns t) row)]
  | Lit text _ => [Some text]
  | RegexpExtract c short _ =>
      [match cell c (combine (columns t) row) with
       | Some s => Some (regexp_extract short s)
       | None => None
       end]
  end.

Definition eval_select (con : engine) (sel : select) : res table :=
  match eval_source con (from sel) with
  | Raise e => Raise e
  | Ok t =>
      if forallb (item_ok t) (items sel)
      then Ok (mkTable (flat_map (item_columns t) (items sel))
                       (map (fun row =>
                               flat_map (fun it => item_values t it row)
                                        (items sel))
                            (rows t)))
      else Raise (EngineError "Binder Error: Referenced column not found")
  end.

Definition eval_query (con : engine) (q : list select) : res table :=
  if statement_text_ok q
  then match map_res (eval_select con) q with
       | Raise e => Raise e
       | Ok ts => union_all ts
       end
  else Raise (EngineError "Parser Error: syntax error").

(** [con.execute(statement)].  [CREATE OR REPLACE] puts the new
    object in the place of one of the same name; a table made from a
    query gets the query's column names, a repeated one renamed; a
    view keeps its query and computes nothing until it is read. *)
Definition execute (st : statement) : M engine unit :=
  fun con =>
    match st with
    | CreateTableColumns name cols =>
        (Ok (), mkEngine (<[name := Table (mkTable cols [])]> (catalog con))
                        (functions con))
    | CreateTableAs name q =>
        match eval_query con q with
        | Raise e => (Raise e, con)
        | Ok t =>
            (Ok (),
             mkEngine (<[name := Table (mkTable (dedup_names (columns t))
                                                (rows t))]> (catalog con))
                      (functions con))
        end
    | CreateView name q =>
        (Ok (), mkEngine (<[name := View q]> (catalog con)) (functions con))
    end.

(** [SELECT * FROM name] *)
Definition read_relation (name : string) (con : engine) : res table :=
  match catalog con !! name with
  | Some (Table t) => Ok t
  | Some (View q) => eval_query con q
  | None => Raise (EngineError
              ("Catalog Error: Table with name " +:+ name
               +:+ " does not exist"))
  end.

(** [con.execute("SELECT COUNT( * ) FROM name").fetchone()[0]] *)
Definition count_rows (name : string) : M engine nat :=
  fun con =>
    match read_relation name con with
    | Ok t => (Ok (List.length (rows t)), con)
    | Raise e => (Raise e, con)
    end.

(** [con.create_function(name, f)] registers a scalar function and,
    given no [return_type], takes the type from the annotation of
    [f].  The scanners are generators annotated [-> Iterator[dict]],
    which names no type of the engine: the call raises and nothing is
    registered. *)
Definition create_function (name : string) (sc : scanner) : M engine unit :=
  fun con =>
    (Raise (EngineError
       "Invalid Input Error: Could not infer the return type, please set it explicitly"),
     con).

End Engine.

(** ** The loaders *)

(** [BIDSLoader.__init__] with the default [schema=None]: the shared
    default schema gives the two mappings, then the root is checked. *)
Definition BIDSLoader_init (net : nat -> string -> fetch_outcome)
    (fs : filesystem) (bids_root : string) : M process BIDSLoader :=
  short_to_full <- on_default_schema net (get_entity_mapping net) ;;
  display_names <- on_default_schema net (get_entity_display_names net) ;;
  if path_exists fs bids_root
  then ret (mkBIDSLoader bids_root short_to_full display_names)
  else raise (FileNotFoundError ("BIDS root does not exist: " +:+ bids_root)).

(** [TableFunctionLoader] adds one field to the base loader. *)
Record TableFunctionLoader : Type := mkTableFunctionLoader {
  loader : BIDSLoader;
  _functions_registered : bool
}.

Definition TableFunctionLoader_init (base : BIDSLoader) : TableFunctionLoader :=
  mkTableFunctionLoader base false.

Section Loaders.

Variable fs : filesystem.

(** approach1_sql.py: [SQLRegexLoader.load_tsv_files] *)
Definition sql_load_tsv_files (self : BIDSLoader) (pattern : string)
    (use_full_names : bool) : M engine string :=
  let table_name := "bids_tsv_data" in
  let glob_pattern := join_path (bids_root self) pattern in
  let entity_extracts :=
    map (fun short_name =>
           RegexpExtract "filename" short_name
             (get_entity_column_name self short_name use_full_names))
        (dict_keys (entity_short_to_full self)) in
  let query :=
    CreateTableAs table_name
      [mkSelect ([Star; Col "filename"] ++ entity_extracts)
                (ReadCsvFilename glob_pattern)] in
  execute fs query ;;;
  count <- count_rows fs table_name ;;
  ret table_name.

(** The [SELECT] that [PythonPreprocessLoader.load_tsv_files] builds
    for one entry of [file_metadata]. *)
Definition union_part (file_info : dict string) : select :=
  let filepath := dict_get_default "filepath" "" file_info in
  let entity_cols :=
    flat_map (fun '(key, value) =>
                if String.eqb key "filepath" || String.eqb key "filename"
                then []
                else [Lit value key])
             file_info in
  mkSelect ([Lit filepath "filepath";
             Lit (dict_get_default "filename" "" file_info) "filename"]
            ++ entity_cols ++ [Star])
           (ReadCsv filepath).

(** approach2_python.py: [PythonPreprocessLoader.load_tsv_files] *)
Definition python_load_tsv_files (self : BIDSLoader) (pattern : string)
    (use_full_names : bool) : M engine string :=
  let table_name := "bids_tsv_data" in
  let tsv_files := glob_paths fs (join_path (bids_root self) pattern) in
  match tsv_files with
  | [] =>
      execute fs (CreateTableColumns table_name ["filepath"]) ;;;
      ret table_name
  | _ =>
      let file_metadata :=
        map (fun tsv_path =>
               file_info tsv_path
                 (file_entities self use_full_names tsv_path))
            tsv_files in
      let union_parts := map union_part file_metadata in
      execute fs (CreateTableAs table_name union_parts) ;;;
      count <- count_rows fs table_name ;;
      ret table_name
  end.

(** approach3_table_function.py:
    [TableFunctionLoader._register_functions].  The state is the
    loader with the engine it owns. *)
Definition on_engine {A} (m : M engine A)
  : M (TableFunctionLoader * engine) A :=
  fun '(self, con) =>
    let '(r, con') := m con in (r, (self, con')).

Definition _register_functions (use_full_names : bool)
  : M (TableFunctionLoader * engine) unit :=
  fun '(self, con) =>
    if _functions_registered self then (Ok (), (self, con))
    else
      (on_engine (create_function "bids_scan_tsv"
                    (mkScanner ScanTsv (loader self) use_full_names)) ;;;
       on_engine (create_function "bids_scan_json"
                    (mkScanner ScanJson (loader self) use_full_names)) ;;;
       fun '(self1, con1) =>
         (Ok (), (mkTableFunctionLoader (loader self1) true, con1)))
      (self, con).

(** [TableFunctionLoader.load_tsv_files] *)
Definition table_function_load_tsv_files (pattern : string)
    (use_full_names : bool) : M (TableFunctionLoader * engine) string :=
  _register_functions use_full_names ;;;
  let table_name := "bids_tsv_data" in
  on_engine
    (execute fs (CreateView table_name
                   [mkSelect [Star] (ScanFunction "bids_scan_tsv" pattern)])) ;;;
  ret table_name.


End Loaders.

(** ** benchmark.py *)

(** [BenchmarkResult]: times are kept as whole clock ticks. *)
Record BenchmarkResult : Type := mkBenchmarkResult {
  approach_name : string;
  load_time : Z;
  query_times : dict Z;
  row_counts : dict nat;
  memory_usage : Z;
  errors : list string
}.

(** The generated [BenchmarkResult.__init__]: [approach_name] and
    [load_time] have no default, the other fields have one. *)
Definition BenchmarkResult_init (approach_name : option string)
    (load_time : option Z) (errors : option (list string))
  : res BenchmarkResult :=
  match approach_name, load_time with
  | Some name, Some t =>
      Ok (mkBenchmarkResult name t [] [] 0 (default [] errors))
  | None, _ =>
      Raise (TypeError
        "BenchmarkResult.__init__() missing 1 required positional argument: 'approach_name'")
  | Some _, None =>
      Raise (TypeError
        "BenchmarkResult.__init__() missing 1 required positional argument: 'load_time'")
  end.

(** [str(e)] *)
Definition exn_str (e : exn) : string :=
  match e with
  | FileNotFoundError msg | ValueError msg | TypeError msg
  | AttributeError msg | EngineError msg => msg
  end.

Inductive loader_class : Type :=
| SQLRegexLoader
| PythonPreprocessLoader
| TableFunctionLoaderClass.

Section Benchmark.

Variable net : nat -> string -> fetch_outcome.
Variable fs : filesystem.

(** What [_benchmark_approach] does with the loader once it is
    made: the load, the statistics, the queries and the memory
    figure, each inside its own [try]. *)
Variable measure : loader_class -> BIDSLoader -> BenchmarkResult
                   -> BenchmarkResult.

(** [BenchmarkSuite._create_loader] *)
Definition _create_loader (suite_root : string) (approach : string)
  : M process (loader_class * BIDSLoader) :=
  let loaders := [("sql", SQLRegexLoader);
                  ("python", PythonPreprocessLoader);
                  ("table_function", TableFunctionLoaderClass)] in
  match dict_get approach loaders with
  | None => raise (ValueError ("Unknown approach: " +:+ approach))
  | Some cls =>
      self <- BIDSLoader_init net fs suite_root ;;
      ret (cls, self)
  end.

(** [BenchmarkSuite._benchmark_approach] *)
Definition _benchmark_approach (suite_root : string) (approach : string)
  : M process BenchmarkResult :=
  result <- lift_res (BenchmarkResult_init (Some approach) None None) ;;
  made <- _create_loader suite_root approach ;;
  ret (measure (fst made) (snd made) result).

(** [BenchmarkSuite.run_all]: the loop over [approaches], with the
    results list as it stands at the end. *)
Fixpoint run_all (suite_root : string) (approaches : list string)
    (p : process) : res (list BenchmarkResult) * process :=
  match approaches with
  | [] => (Ok [], p)
  | approach :: rest =>
      let '(entry, p1) :=
        match _benchmark_approach suite_root approach p with
        | (Ok result, p1) => (Ok result, p1)
        | (Raise e, p1) =>
            (BenchmarkResult_init (Some approach) (Some 0%Z)
                                  (Some [exn_str e]), p1)
        end in
      match entry with
      | Raise e => (Raise e, p1)
      | Ok result =>
          match run_all suite_root rest p1 with
          | (Ok results, p2) => (Ok (result :: results), p2)
          | (Raise e, p2) => (Raise e, p2)
          end
      end
  end.

End Benchmark.

(** ** The specification's reading of entity extraction *)

Fixpoint all_alnum (s : string) : bool :=
  match s with
  | EmptyString => true
  | String c s' => is_alnum c && all_alnum s'
  end.

Definition starts_alnum (s : string) : bool :=
  match s with
  | String c _ => is_alnum c
  | EmptyString => false
  end.

(** Some match of "one or more alphanumerics, a hyphen, one or more
    alphanumerics" begins at the head of [s]. *)
Definition matches_at (s : string) : Prop :=
  exists k v u, s = k +:+ "-" +:+ v +:+ u
                /\ k <> "" /\ v <> ""
                /\ all_alnum k = true /\ all_alnum v = true.

(** The match at the head of [s] is [k-v], taken as long as it goes,
    and [u] is what follows it. *)
Definition token_at (s k v u : string) : Prop :=
  s = k +:+ "-" +:+ v +:+ u
  /\ k <> "" /\ v <> ""
  /\ all_alnum k = true /\ all_alnum v = true
  /\ starts_alnum u = false.

(** The matches met scanning left to right, none overlapping another:
    where a match begins it is taken and the scan goes on after it. *)
Inductive scan : string -> list (string * string) -> Prop :=
| scan_end : scan "" []
| scan_match s k v u toks :
    token_at s k v u -> scan u toks -> scan s ((k, v) :: toks)
| scan_skip c s toks :
    ~ matches_at (String c s) -> scan s toks -> scan (String c s) toks.

(** The value of the last pair with key [key]. *)
Definition last_value (key : string) (toks : list (string * string))
  : option string :=
  fold_left (fun acc '(k, v) => if String.eqb k key then Some v else acc)
            toks None.

(** The mapping the specification describes, as a lookup. *)
Definition extract_spec (known : string -> bool)
    (toks : list (string * string)) (key : string) : option string :=
  if known key then last_value key toks else None.

Fixpoint no_slash (s : string) : bool :=
  match s with
  | EmptyString => true
  | String c s' => negb (Ascii.eqb c "/"%char) && no_slash s'
  end.

(** ** Observations on relations *)

(** For each row, its source file (the cell of column [src]) and its
    cell in column [c]. *)
Definition observe (src c : string) (t : table) : list (value * value) :=
  map (fun nr => (cell src nr, cell c nr)) (named_rows t).

(** The non-null values of column [c] in the rows whose source file
    is [path]. *)
Definition entity_values (src path c : string) (t : table) : list string :=
  omap snd
    (List.filter (fun sv => bool_decide (fst sv = Some path)) (observe src c t)).

(** The relation [bids_tsv_data] holds after a load on a fresh
    engine, for each variant. *)
Definition loaded_relation (fs : filesystem) (load : M engine string)
  : res table :=
  match load connect with
  | (Ok name, con) => read_relation fs name con
  | (Raise e, _) => Raise e
  end.

Definition sql_relation (fs : filesystem) (self : BIDSLoader)
    (pattern : string) (use_full_names : bool) : res table :=
  loaded_relation fs (sql_load_tsv_files fs self pattern use_full_names).

Definition python_relation (fs : filesystem) (self : BIDSLoader)
    (pattern : string) (use_full_names : bool) : res table :=
  loaded_relation fs (python_load_tsv_files fs self pattern use_full_names).

Definition table_function_relation (fs : filesystem) (self : BIDSLoader)
    (pattern : string) (use_full_names : bool) : res table :=
  match table_function_load_tsv_files fs pattern use_full_names
          (TableFunctionLoader_init self, connect) with
  | (Ok name, (_, con)) => read_relation fs name con
  | (Raise e, _) => Raise e
  end.

(** The entity columns of a loader: one for each schema short name. *)
Definition entity_columns (self : BIDSLoader) (use_full_names : bool)
  : list string :=
  map (fun short_name => get_entity_column_name self short_name use_full_names)
      (dict_keys (entity_short_to_full self)).

(** Cross-variant equivalence as the specification states it: the
    three loads give relations with the same number of rows and, for
    each source file and entity column, the same non-null values. *)
Definition variants_agree (fs : filesystem) (self : BIDSLoader)
    (pattern : string) (use_full_names : bool) : Prop :=
  exists t_sql t_py t_tf,
    sql_relation fs self pattern use_full_names = Ok t_sql
    /\ python_relation fs self pattern use_full_names = Ok t_py
    /\ table_function_relation fs self pattern use_full_names = Ok t_tf
    /\ List.length (rows t_sql) = List.length (rows t_py)
    /\ List.length (rows t_py) = List.length (rows t_tf)
    /\ forall path c, In c (entity_columns self use_full_names) ->
         entity_values "filename" path c t_sql
         = entity_values "filepath" path c t_py
         /\ entity_values "filepath" path c t_py
            = entity_values "filepath" path c t_tf.

(** ** The host-eager union, spelled out *)

(** The entries of [file_info] that become literal entity columns. *)
Definition entity_items (file_info : dict string) : dict string :=
  List.filter
    (fun kv => negb (String.eqb (fst kv) "filepath"
                     || String.eqb (fst kv) "filename"))
    file_info.

(** The table of one operand of the union: the literal columns in
    front of the file's own columns. *)
Definition python_part (file_info : dict string) (t : table) : table :=
  let front_columns := ["filepath"; "filename"] ++ dict_keys (entity_items file_info) in
  let front_values :=
    [Some (dict_get_default "filepath" "" file_info);
     Some (dict_get_default "filename" "" file_info)]
    ++ map (fun kv => Some (snd kv)) (entity_items file_info) in
  mkTable (front_columns ++ columns t)
          (map (fun row => front_values ++ row) (rows t)).

Definition same_width (ts : list table) : bool :=
  match ts with
  | [] => true
  | t :: rest =>
      forallb (fun u => List.length (columns u) =? List.length (columns t))%nat rest
  end.

(** Heterogeneous column sets tolerated, as the specification states
    it: the host-eager load succeeds and every column of every matched
    file is a column of the table. *)
Definition tolerates_columns (fs : filesystem) (self : BIDSLoader)
    (pattern : string) (use_full_names : bool) : Prop :=
  exists t,
    python_relation fs self pattern use_full_names = Ok t
    /\ forall path file, In path (glob_paths fs (join_path (bids_root self) pattern)) ->
         read_csv fs path = Some file ->
         forall c, In c (columns file) -> In c (columns t).

(** The files a load matches, and the table read from one of them. *)
Definition matched_files (fs : filesystem) (self : BIDSLoader)
    (pattern : string) : list string :=
  glob_paths fs (join_path (bids_root self) pattern).

Definition read_table (fs : filesystem) (path : string) : table :=
  default (mkTable [] []) (read_csv fs path).

(** ** Auxiliary definitions for the proofs *)

(** The loop of [parse_bids_entities] on a given list of matches. *)
Definition parse_tokens (known : dict string) (toks : list (string * string))
  : dict string :=
  fold_left
    (fun entities '(key, value) =>
       if dict_mem key known then dict_set key value entities else entities)
    toks [].

(** A loader over the fallback schema. *)
Definition fallback_loader : BIDSLoader :=
  mkBIDSLoader "/data"
    (short_to_full_of _get_fallback_entities)
    (display_names_of _get_fallback_entities).

(** A network whose first request times out and whose later requests
    load a one-entity definition. *)
Definition flaky_net (k : nat) (url : string) : fetch_outcome :=
  match k with
  | O => RequestRaises "timeout"
  | S _ => Loaded (YEntities
             [("subject", [("name", "sub"); ("display_name", "Participant")])])
  end.

(** A network on which every request fails. *)
Definition dead_net (k : nat) (url : string) : fetch_outcome :=
  StatusRaises "404 Client Error: Not Found".

(** A file system with no file under a root that exists. *)
Definition empty_fs : filesystem :=
  mkFilesystem (fun _ => []) (fun _ => None) (fun _ => None) (fun _ => true).


(** ** Fixture trees *)

Definition events2 : table :=
  mkTable ["onset"; "duration"]
          [[Some "1.0"; Some "2.0"]; [Some "3.0"; Some "2.0"]].

Definition events3 : table :=
  mkTable ["onset"; "duration"; "trial_type"]
          [[Some "1.0"; Some "2.0"; Some "X"]].

Definition events2' : table :=
  mkTable ["onset"; "trial_type"] [[Some "1.0"; Some "X"]].

(** A file system whose glob [/data/**/*.tsv] lists [files]. *)
Definition fixture_fs (files : list (string * table)) : filesystem :=
  mkFilesystem
    (fun g => if String.eqb g "/data/**/*.tsv" then map fst files else [])
    (fun p => dict_get p files)
    (fun _ => None)
    (fun _ => true).

(** Two subjects, one with a session, a shared task; the session is
    named by the directory, as the subject is. *)
Definition session_in_directory : filesystem :=
  fixture_fs
    [("/data/sub-01/func/sub-01_task-rest_events.tsv", events2);
     ("/data/sub-02/ses-pre/func/sub-02_task-rest_events.tsv", events2)].

(** The same tree with the session in the file names of both. *)
Definition session_in_names : filesystem :=
  fixture_fs
    [("/data/sub-01/ses-pre/func/sub-01_ses-pre_task-rest_events.tsv", events2);
     ("/data/sub-02/ses-pre/func/sub-02_ses-pre_task-rest_events.tsv", events2)].

(** Two files whose tables have two and three columns. *)
Definition two_and_three_columns : filesystem :=
  fixture_fs
    [("/data/sub-01_task-rest_events.tsv", events2);
     ("/data/sub-02_task-rest_events.tsv", events3)].

(** Two files whose tables have two columns each, one of them named
    differently. *)
Definition two_and_two_columns : filesystem :=
  fixture_fs
    [("/data/sub-01_task-rest_events.tsv", events2);
     ("/data/sub-02_task-rest_events.tsv", events2')].

(** Two matched files, the second of which the engine cannot read. *)
Definition one_unreadable : filesystem :=
  mkFilesystem
    (fun g => if String.eqb g "/data/**/*.tsv"
              then ["/data/sub-01_task-rest_events.tsv";
                    "/data/sub-02_task-rest_events.tsv"]
              else [])
    (fun p => if String.eqb p "/data/sub-01_task-rest_events.tsv"
              then Some events2 else None)
    (fun _ => None)
    (fun _ => true).

(** What a relation shows of one column when each row of each file
    read gives the path of its file and the value [value_of] has for
    that file: the files in the order of the glob, one pair for each
    of their rows (a file that is not read has none). *)
Definition per_file_rows (fs : filesystem) (paths : list string)
    (value_of : string -> value) : list (value * value) :=
  flat_map (fun p => map (fun _ => (Some p, value_of p))
                         (rows (read_table fs p)))
           paths.

(** The select of the engine-native [load_tsv_files]. *)
Definition sql_select (self : BIDSLoader) (pattern : string)
    (use_full_names : bool) : select :=
  mkSelect
    ([Star; Col "filename"]
     ++ map (fun short_name =>
               RegexpExtract "filename" short_name
                 (get_entity_column_name self short_name use_full_names))
            (dict_keys (entity_short_to_full self)))
    (ReadCsvFilename (join_path (bids_root self) pattern)).

(** A failure that tells the caller that no file matched: its message
    says so. *)
Definition starts_with (p s : string) : bool :=
  match strip_prefix p s with Some _ => true | None => false end.

Fixpoint contains (needle hay : string) : bool :=
  starts_with needle hay
  || match hay with
     | String _ hay' => contains needle hay'
     | EmptyString => false
     end.

Definition no_matching_files (e : exn) : bool :=
  contains "No files found" (exn_str e).

(** A loader whose root has an apostrophe in its name. *)
Definition quoted_root_loader : BIDSLoader :=
  mkBIDSLoader "/data/o'k"
    (short_to_full_of _get_fallback_entities)
    (display_names_of _get_fallback_entities).

(** A text without a hyphen. *)
Fixpoint no_hyphen (s : string) : bool :=
  match s with
  | EmptyString => true
  | String c s' => negb (Ascii.eqb c "-"%char) && no_hyphen s'
  end.

(** A tree with two sidecars, one of which cannot be parsed. *)
Definition sidecars_fs : filesystem :=
  mkFilesystem
    (fun g => if String.eqb g "/data/**/*.json"
              then ["/data/sub-01_task-rest_bold.json";
                    "/data/sub-02_task-rest_bold.json"]
              else [])
    (fun _ => None)
    (fun p => if String.eqb p "/data/sub-01_task-rest_bold.json"
              then Some "[1, 2]" else None)
    (fun p => String.eqb p "/data").

(** ** The summary of a benchmark

    What is printed is not modelled; the model keeps whether the
    printing methods return or raise. *)

(** [min(t for t in ts if t > 0)] raises [ValueError] on an empty
    generator (the text of the message is the interpreter's). *)
Definition min_positive (ts : list Z) : res Z :=
  match List.filter (fun t => (0 <? t)%Z) ts with
  | [] => Raise (ValueError "min() arg is an empty sequence")
  | t :: rest => Ok (fold_left Z.min rest t)
  end.

(** The dictionary [times] that [_print_comparison_table] builds for
    one query name. *)
Definition query_times_of (query_name : string)
    (results : list BenchmarkResult) : dict Z :=
  fold_left
    (fun times r =>
       dict_set (approach_name r)
                (dict_get_default query_name 0%Z (query_times r)) times)
    results [].

(** [BenchmarkSuite._print_comparison_table]: the load times first,
    then one table for each query name met in the results (their
    order and repetitions do not change what is raised). *)
Definition _print_comparison_table (results : list BenchmarkResult)
  : res unit :=
  match min_positive (map load_time results) with
  | Raise e => Raise e
  | Ok min_load_time =>
      fold_left
        (fun (acc : res unit) query_name =>
           match acc with
           | Raise e => Raise e
           | Ok _ =>
               match query_times_of query_name results with
               | [] => Ok tt                       (* min_time = 1 *)
               | times =>
                   match min_positive (map snd times) with
                   | Raise e => Raise e
                   | Ok min_time => Ok tt
                   end
               end
           end)
        (flat_map (fun r => dict_keys (query_times r)) results)
        (Ok tt)
  end.

(** [BenchmarkSuite.print_summary] *)
Definition print_summary (results : list BenchmarkResult) : res unit :=
  if (1 <? List.length results)%nat
  then _print_comparison_table results
  else Ok tt.

Section RunBenchmark.

Variable net : nat -> string -> fetch_outcome.
Variable fs : filesystem.
Variable measure : loader_class -> BIDSLoader -> BenchmarkResult
                   -> BenchmarkResult.

(** [run_benchmark(bids_root, approaches)]; [approaches=None] stands
    for the three known names. *)
Definition run_benchmark (bids_root : string)
    (approaches : option (list string)) : M process (list BenchmarkResult) :=
  let approaches := default ["sql"; "python"; "table_function"] approaches in
  results <- run_all net fs measure bids_root approaches ;;
  lift_res (print_summary results) ;;;
  ret results.

End RunBenchmark.


(** ** Ordered dictionaries *)

Lemma dict_get_set_eq {V} (k : string) (v : V) (d : dict V) :
  dict_get k (dict_set k v d) = Some v.
Proof.
  induction d as [|[k' v'] d IH]; simpl.
  - by rewrite String.eqb_refl.
  - destruct (String.eqb k k') eqn:E; simpl; rewrite E; [done | apply IH].
Qed.

Lemma dict_get_set_ne {V} (k k' : string) (v : V) (d : dict V) :
  k <> k' -> dict_get k' (dict_set k v d) = dict_get k' d.
Proof.
  intros Hne. induction d as [|[k0 v0] d IH]; simpl.
  - destruct (String.eqb k' k) eqn:E; [|done].
    apply String.eqb_eq in E. congruence.
  - destruct (String.eqb k k0) eqn:E; simpl.
    + apply String.eqb_eq in E. subst k0.
      destruct (String.eqb k' k) eqn:E'; [|done].
      apply String.eqb_eq in E'. congruence.
    + by rewrite IH.
Qed.

Lemma dict_keys_set {V} (k : string) (v : V) (d : dict V) :
  dict_keys (dict_set k v d)
  = if dict_mem k d then dict_keys d else dict_keys d ++ [k].
Proof.
  unfold dict_mem, dict_keys. induction d as [|[k' v'] d IH]; simpl; [done|].
  destruct (String.eqb k k') eqn:E; simpl; [done|].
  rewrite IH. by destruct (dict_get k d).
Qed.

Lemma dict_get_None_keys {V} (k : string) (d : dict V) :
  dict_get k d = None <-> ~ In k (dict_keys d).
Proof.
  unfold dict_keys. induction d as [|[k' v'] d IH]; simpl; [tauto|].
  destruct (String.eqb k k') eqn:E.
  - apply String.eqb_eq in E. subst. split; [done | tauto].
  - apply String.eqb_neq in E. rewrite IH. split; [|tauto].
    intros H [->|H']; tauto.
Qed.

Lemma dict_set_NoDup {V} (k : string) (v : V) (d : dict V) :
  List.NoDup (dict_keys d) -> List.NoDup (dict_keys (dict_set k v d)).
Proof.
  intros Hnd. rewrite dict_keys_set. unfold dict_mem.
  destruct (dict_get k d) eqn:E; [done|].
  apply dict_get_None_keys in E.
  apply NoDup_ListNoDup. apply NoDup_ListNoDup in Hnd.
  apply NoDup_app. split_and!; [done| |apply NoDup_singleton].
  intros x Hx Hx'. apply list_elem_of_singleton in Hx'. subst.
  by apply list_elem_of_In in Hx.
Qed.

(** ** Scanning *)

Lemma span_alnum_spec s r t :
  span_alnum s = (r, t) ->
  s = r +:+ t /\ all_alnum r = true /\ starts_alnum t = false.
Proof.
  revert r t. induction s as [|c s IH]; simpl; intros r t H.
  - by inversion H.
  - destruct (is_alnum c) eqn:Ec.
    + destruct (span_alnum s) as [r' t'] eqn:Es. inversion H; subst.
      destruct (IH _ _ eq_refl) as (-> & Hr & Ht). simpl.
      by rewrite Ec, Hr.
    + inversion H; subst. simpl. by rewrite Ec.
Qed.

Lemma span_alnum_app r t :
  all_alnum r = true -> starts_alnum t = false -> span_alnum (r +:+ t) = (r, t).
Proof.
  intros Hr Ht. induction r as [|c r IH]; simpl in *.
  - destruct t as [|c t]; [done|]. simpl in *. by rewrite Ht.
  - apply andb_true_iff in Hr as [Hc Hr]. by rewrite Hc, (IH Hr).
Qed.

Lemma span_alnum_prefix r t :
  all_alnum r = true ->
  exists r' t', span_alnum (r +:+ t) = (r +:+ r', t') /\ t = r' +:+ t'.
Proof.
  intros Hr. induction r as [|c r IH]; simpl in *.
  - destruct (span_alnum t) as [r' t'] eqn:E. exists r', t'.
    split; [done|]. by apply span_alnum_spec in E as [? _].
  - apply andb_true_iff in Hr as [Hc Hr]. rewrite Hc.
    destruct (IH Hr) as (r' & t' & -> & ->). by exists r', t'.
Qed.

Lemma hyphen_not_alnum : is_alnum "-"%char = false.
Proof. reflexivity. Qed.

Lemma match_at_token s k v u :
  match_at s = Some (k, v, u) <-> token_at s k v u.
Proof.
  unfold match_at, token_at. split.
  - destruct (span_alnum s) as [k' t] eqn:Es.
    apply span_alnum_spec in Es as (-> & Hk & _).
    destruct k' as [|c k']; [done|]. destruct t as [|h t]; [done|].
    destruct h as [[] [] [] [] [] [] [] []]; try done.
    destruct (span_alnum t) as [v' u'] eqn:Et.
    apply span_alnum_spec in Et as (-> & Hv & Hu).
    destruct v' as [|d v']; [done|]. intros H. inversion H; subst.
    split_and!; try done.
  - intros (-> & Hk & Hv & Hak & Hav & Hu).
    rewrite (span_alnum_app k ("-" +:+ v +:+ u) Hak eq_refl).
    destruct k as [|c k]; [done|]. simpl.
    change ("" +:+ v +:+ u) with (v +:+ u).
    rewrite (span_alnum_app v u Hav Hu). by destruct v.
Qed.

Lemma matches_at_match s :
  matches_at s -> exists k v u, match_at s = Some (k, v, u).
Proof.
  intros (k & v & u & -> & Hk & Hv & Hak & Hav).
  unfold match_at.
  rewrite (span_alnum_app k ("-" +:+ v +:+ u) Hak eq_refl).
  destruct k as [|c k]; [done|]. simpl.
  change ("" +:+ v +:+ u) with (v +:+ u).
  destruct (span_alnum_prefix v u Hav) as (r' & t' & -> & _).
  destruct v as [|d v]; [done|]. simpl. eauto.
Qed.

Lemma length_append (s t : string) :
  String.length (s +:+ t) = String.length s + String.length t.
Proof. induction s; simpl; [done | by rewrite IHs]. Qed.

Lemma token_at_shorter s k v u :
  token_at s k v u -> String.length u < String.length s.
Proof.
  intros (-> & Hk & _). rewrite !length_append. simpl.
  destruct k; [done|]. simpl. lia.
Qed.

Lemma finditer_fuel_scan n s :
  String.length s < n -> scan s (finditer_fuel n s).
Proof.
  revert s. induction n as [|n IH]; intros s Hn; [lia|]. simpl.
  destruct (match_at s) as [[[k v] u]|] eqn:Em.
  - apply match_at_token in Em. eapply scan_match; [done|].
    apply IH. apply token_at_shorter in Em. lia.
  - destruct s as [|c s]; [constructor|].
    apply scan_skip.
    + intros Hm. apply matches_at_match in Hm as (k & v & u & Hm). congruence.
    + apply IH. simpl in Hn. lia.
Qed.

Lemma finditer_scan s : scan s (finditer s).
Proof. apply finditer_fuel_scan. lia. Qed.

Lemma token_at_matches s k v u : token_at s k v u -> matches_at s.
Proof. intros (? & ? & ? & ? & ? & ?). by exists k, v, u. Qed.

Lemma scan_deterministic s toks1 toks2 :
  scan s toks1 -> scan s toks2 -> toks1 = toks2.
Proof.
  intros H1. revert toks2.
  induction H1 as [|s k v u toks Ht Hs IH|c s toks Hn Hs IH]; intros toks2 H2.
  - inversion H2; subst; [done|].
    destruct H as (He & Hk & _). destruct k; [done | discriminate].
  - inversion H2; subst.
    + destruct Ht as (He & Hk & _). destruct k; [done | discriminate].
    + apply match_at_token in Ht, H. rewrite Ht in H. inversion H; subst.
      f_equal. by apply IH.
    + exfalso. apply H. by eapply token_at_matches.
  - inversion H2; subst.
    + exfalso. apply Hn. by eapply token_at_matches.
    + by apply IH.
Qed.

(** ** Entity extraction *)

Lemma last_value_snoc key toks k v :
  last_value key (toks ++ [(k, v)])
  = if String.eqb k key then Some v else last_value key toks.
Proof. unfold last_value. by rewrite fold_left_app. Qed.


Lemma parse_tokens_snoc known toks k v :
  parse_tokens known (toks ++ [(k, v)])
  = if dict_mem k known then dict_set k v (parse_tokens known toks)
    else parse_tokens known toks.
Proof. unfold parse_tokens. by rewrite fold_left_app. Qed.

Lemma parse_tokens_get known toks key :
  dict_get key (parse_tokens known toks)
  = extract_spec (fun k => dict_mem k known) toks key.
Proof.
  unfold extract_spec.
  induction toks as [|[k v] toks IH] using rev_ind.
  - simpl. by destruct (dict_mem key known).
  - rewrite parse_tokens_snoc, last_value_snoc.
    destruct (String.eqb k key) eqn:E.
    + apply String.eqb_eq in E. subst k.
      destruct (dict_mem key known); [apply dict_get_set_eq|].
      by rewrite IH.
    + apply String.eqb_neq in E.
      destruct (dict_mem k known); [|done].
      by rewrite dict_get_set_ne.
Qed.

Lemma parse_tokens_NoDup known toks :
  List.NoDup (dict_keys (parse_tokens known toks)).
Proof.
  induction toks as [|[k v] toks IH] using rev_ind.
  - constructor.
  - rewrite parse_tokens_snoc.
    destruct (dict_mem k known); [by apply dict_set_NoDup | done].
Qed.

Lemma split_slash_no_slash s : no_slash s = true -> split_slash s = [s].
Proof.
  induction s as [|c s IH]; simpl; [done|].
  intros H. apply andb_true_iff in H as [Hc Hs].
  apply negb_true_iff in Hc. rewrite Hc, (IH Hs). done.
Qed.

Lemma split_slash_cons s : exists p ps, split_slash s = p :: ps.
Proof.
  induction s as [|c s (p & ps & IH)]; simpl; [by eexists _, _|].
  destruct (Ascii.eqb c "/"); [by eexists _, _|].
  rewrite IH. by eexists _, _.
Qed.

Lemma split_slash_join a b :
  split_slash (a +:+ "/" +:+ b) = split_slash a ++ split_slash b.
Proof.
  induction a as [|c a IH]; simpl; [done|].
  destruct (Ascii.eqb c "/"); simpl.
  - by f_equal.
  - change (String "/" ("" +:+ b)) with ("/" +:+ b). rewrite IH.
    by destruct (split_slash_cons a) as (p & ps & ->).
Qed.

Lemma path_name_join dir name :
  no_slash name = true -> is_component name = true ->
  path_name (dir +:+ "/" +:+ name) = name.
Proof.
  intros Hs Hc. unfold path_name.
  rewrite split_slash_join, (split_slash_no_slash name Hs).
  rewrite List.filter_app. simpl. rewrite Hc. apply List.last_last.
Qed.

Lemma path_name_no_slash name :
  no_slash name = true ->
  path_name name = if is_component name then name else "".
Proof.
  intros Hs. unfold path_name. rewrite (split_slash_no_slash name Hs).
  simpl. by destruct (is_component name).
Qed.

Lemma finditer_path_name s :
  no_slash s = true -> finditer (path_name s) = finditer s.
Proof.
  intros Hs. rewrite (path_name_no_slash s Hs).
  destruct (is_component s) eqn:E; [done|].
  unfold is_component in E. apply andb_false_iff in E as [E|E];
    apply negb_false_iff, String.eqb_eq in E; by subst.
Qed.

Lemma dict_get_all_None {V} (d : dict V) :
  (forall k, dict_get k d = None) -> d = [].
Proof.
  destruct d as [|[k v] d]; [done|]. intros H. specialize (H k).
  simpl in H. by rewrite String.eqb_refl in H.
Qed.

(** C2. Entity extraction returns the mapping the specification
    describes: on a file name, the matches of "alphanumerics, hyphen,
    alphanumerics" met scanning left to right without overlap are the
    pairs [re.finditer] gives; the result binds each known key among
    them to the value of its last occurrence and binds nothing else,
    so an unknown key never appears and the result is empty when no
    token matches. *)
Theorem C2_parse_bids_entities_is_the_scan (self : BIDSLoader) (filename : string) :
  no_slash filename = true ->
  let known k := dict_mem k (entity_short_to_full self) in
  scan filename (finditer filename)
  /\ forall toks, scan filename toks ->
       List.NoDup (dict_keys (parse_bids_entities self filename))
       /\ (forall key, dict_get key (parse_bids_entities self filename)
                       = extract_spec known toks key)
       /\ (forall key, known key = false ->
                       dict_get key (parse_bids_entities self filename) = None)
       /\ (toks = [] -> parse_bids_entities self filename = []).
Proof.
  intros Hs known. split; [apply finditer_scan|].
  intros toks Hscan.
  assert (toks = finditer filename) as ->
    by (eapply scan_deterministic; [done | apply finditer_scan]).
  assert (Hp : parse_bids_entities self filename
               = parse_tokens (entity_short_to_full self) (finditer filename))
    by (unfold parse_bids_entities; by rewrite finditer_path_name).
  rewrite Hp. split_and!.
  - apply parse_tokens_NoDup.
  - intros key. apply parse_tokens_get.
  - intros key Hk. rewrite parse_tokens_get. unfold extract_spec.
    fold (known key). by rewrite Hk.
  - by intros ->.
Qed.


Lemma C2_witness :
  no_slash "foo-01_sub-02_sub-03.tsv" = true
  /\ forall key,
       dict_get key (parse_bids_entities fallback_loader "foo-01_sub-02_sub-03.tsv")
       = extract_spec (fun k => dict_mem k (entity_short_to_full fallback_loader))
           [("foo", "01"); ("sub", "02"); ("sub", "03")] key.
Proof.
  split; [reflexivity|]. intros key.
  destruct (C2_parse_bids_entities_is_the_scan fallback_loader
              "foo-01_sub-02_sub-03.tsv" eq_refl) as [Hscan H].
  apply (H _ Hscan).
Defined.

(** C10. Host-side extraction reads the final path component only:
    for a file name [name] and every directory prefix [dir],
    [parse_bids_entities] gives the same mapping on [dir/name] as on
    [name], and so does the entity mapping the host-eager and the
    host-lazy variant attach to the file. *)
Theorem C10_directories_do_not_contribute (self : BIDSLoader)
    (dir name : string) (use_full_names : bool) :
  no_slash name = true -> is_component name = true ->
  parse_bids_entities self (dir +:+ "/" +:+ name)
  = parse_bids_entities self name
  /\ file_entities self use_full_names (dir +:+ "/" +:+ name)
     = file_entities self use_full_names name.
Proof.
  intros Hs Hc.
  assert (H : parse_bids_entities self (dir +:+ "/" +:+ name)
              = parse_bids_entities self name).
  { unfold parse_bids_entities.
    rewrite (path_name_join dir name Hs Hc), (path_name_no_slash name Hs).
    by rewrite Hc. }
  split; [done|]. unfold file_entities. by rewrite H.
Qed.

Lemma C10_witness :
  no_slash "sub-01_task-rest_events.tsv" = true
  /\ is_component "sub-01_task-rest_events.tsv" = true
  /\ parse_bids_entities fallback_loader
       ("/data/sub-02/ses-pre" +:+ "/" +:+ "sub-01_task-rest_events.tsv")
     = parse_bids_entities fallback_loader "sub-01_task-rest_events.tsv".
Proof.
  split; [reflexivity|]. split; [reflexivity|].
  apply (C10_directories_do_not_contribute fallback_loader
           "/data/sub-02/ses-pre" "sub-01_task-rest_events.tsv" true);
    reflexivity.
Defined.


(** ** The schema *)

(** C4. When the fetch or the parse of the entity definition fails,
    whatever the version, [load_entities] returns (it has no raising
    outcome) the fixed fallback set of 11 entries, which maps [sub],
    [ses] and [task] to [subject], [session] and [task]; constructing a
    [BIDSSchema] fetches nothing and cannot fail. *)
Theorem C4_fetch_failure_gives_fallback
    (net : nat -> string -> fetch_outcome) (version : string) (requests : nat) :
  let self := BIDSSchema_init version in
  fetch_fails (net requests (base_url self +:+ "/entities.yaml")) = true ->
  load_entities net self requests
  = (YEntities _get_fallback_entities, self, S requests)
  /\ List.length _get_fallback_entities = 11
  /\ dict_get "sub" (short_to_full_of _get_fallback_entities) = Some "subject"
  /\ dict_get "ses" (short_to_full_of _get_fallback_entities) = Some "session"
  /\ dict_get "task" (short_to_full_of _get_fallback_entities) = Some "task"
  /\ fst (fst (get_entity_mapping net self requests))
     = Ok (short_to_full_of _get_fallback_entities).
Proof.
  intros self Hf.
  assert (Hl : load_entities net self requests
               = (YEntities _get_fallback_entities, self, S requests)).
  { unfold load_entities. simpl.
    destruct (net requests (base_url self +:+ "/entities.yaml")); done. }
  split_and!; try done.
  unfold get_entity_mapping. simpl. fold self. by rewrite Hl.
Qed.

Lemma C4_witness :
  fetch_fails (dead_net 0 (base_url (BIDSSchema_init "nonexistent-version-xyz")
                           +:+ "/entities.yaml")) = true
  /\ load_entities dead_net (BIDSSchema_init "nonexistent-version-xyz") 0
     = (YEntities _get_fallback_entities,
        BIDSSchema_init "nonexistent-version-xyz", 1).
Proof.
  split; [reflexivity|].
  apply (C4_fetch_failure_gives_fallback dead_net "nonexistent-version-xyz" 0).
  reflexivity.
Defined.

(** C7 fails as stated: with a first request that times out and a
    second that loads a definition, two successive calls of
    [load_entities] on one instance give different results, so do two
    calls of [get_entity_display_names], and the default schema, built
    with the failed request, fetches again at its next
    [load_entities]. *)
Lemma C7_counterexample :
  let self := BIDSSchema_init "master" in
  (let '(r1, self1, n1) := load_entities flaky_net self 0 in
   let '(r2, _, _) := load_entities flaky_net self1 n1 in
   r1 <> r2)
  /\ (let '(r1, self1, n1) := get_entity_display_names flaky_net self 0 in
      let '(r2, _, _) := get_entity_display_names flaky_net self1 n1 in
      r1 <> r2)
  /\ (let '(_, p1) := get_default_schema flaky_net (mkProcess None 0) in
      let '(_, p2) := on_default_schema flaky_net (load_entities flaky_net) p1 in
      requests_made p1 = 1 /\ requests_made p2 = 2).
Proof. vm_compute. split_and!; done. Qed.

Lemma load_entities_cached net (self : BIDSSchema) (requests : nat) :
  is_none (_entities self) = false ->
  load_entities net self requests = (_entities self, self, requests).
Proof. intros H. unfold load_entities. by rewrite H. Qed.

(** C7, amended. [get_entity_mapping] is computed once and cached:
    after a call that returned a mapping, every later call, and
    [get_all_entity_short_names], gives the same result and fetches
    nothing, whatever the network does.  [load_entities] is cached
    from the first loaded document on: on an instance that holds one,
    it and [get_entity_display_names] fetch nothing and do not depend
    on the network.  [get_default_schema] builds its instance once:
    a second call returns the same instance and fetches nothing. *)
Theorem C7_what_is_cached
    (net net' : nat -> string -> fetch_outcome) (self : BIDSSchema)
    (requests requests' : nat) :
  (forall m self1 requests1,
      get_entity_mapping net self requests = (Ok m, self1, requests1) ->
      get_entity_mapping net' self1 requests' = (Ok m, self1, requests')
      /\ get_all_entity_short_names net' self1 requests'
         = (Ok (dict_keys m), self1, requests'))
  /\ (is_none (_entities self) = false ->
      load_entities net' self requests' = (_entities self, self, requests')
      /\ get_entity_display_names net' self requests'
         = (fst (fst (get_entity_display_names net self requests)),
            self, requests'))
  /\ (forall p,
      let '(schema, p1) := get_default_schema net p in
      get_default_schema net' p1 = (schema, p1)).
Proof.
  split_and!.
  - intros m self1 requests1 H.
    assert (Hc : _entity_short_to_full self1 = Some m).
    { unfold get_entity_mapping in H.
      destruct (_entity_short_to_full self) eqn:E.
      - by inversion H; subst.
      - destruct (load_entities net self requests) as [[doc s1] n1].
        destruct doc; inversion H; by subst. }
    unfold get_all_entity_short_names, get_entity_mapping. by rewrite Hc.
  - intros Hn. split; [by apply load_entities_cached|].
    unfold get_entity_display_names.
    rewrite !load_entities_cached by done. by destruct (_entities self).
  - intros p. unfold get_default_schema.
    destruct (default_schema p) eqn:E.
    + by rewrite E.
    + by destruct (load_entities net (BIDSSchema_init "master")
                    (requests_made p)) as [[doc s1] n1].
Qed.

Lemma C7_witness :
  let self := BIDSSchema_init "master" in
  let '(r, self1, n1) := get_entity_mapping flaky_net self 0 in
  r = Ok (short_to_full_of _get_fallback_entities)
  /\ get_entity_mapping flaky_net self1 n1 = (r, self1, n1).
Proof.
  simpl. split; [reflexivity|].
  destruct (C7_what_is_cached flaky_net flaky_net (BIDSSchema_init "master") 0 1)
    as [H _].
  apply (H _ _ _ eq_refl).
Defined.

(** ** The benchmark *)

Lemma benchmark_approach_raises net fs measure root approach p :
  exists e, _benchmark_approach net fs measure root approach p = (Raise e, p).
Proof. by eexists. Qed.

Lemma run_all_raise net fs measure root a approaches p e :
  _benchmark_approach net fs measure root a p = (Raise e, p) ->
  run_all net fs measure root (a :: approaches) p
  = match BenchmarkResult_init (Some a) (Some 0%Z) (Some [exn_str e]) with
    | Raise e' => (Raise e', p)
    | Ok result =>
        match run_all net fs measure root approaches p with
        | (Ok results, p2) => (Ok (result :: results), p2)
        | (Raise e', p2) => (Raise e', p2)
        end
    end.
Proof. intros H. cbn [run_all]. by rewrite H. Qed.

Lemma run_all_records net fs measure root approaches p :
  exists results,
    run_all net fs measure root approaches p = (Ok results, p)
    /\ List.length results = List.length approaches
    /\ forall i approach, approaches !! i = Some approach ->
         exists entry, results !! i = Some entry
                       /\ approach_name entry = approach
                       /\ load_time entry = 0%Z
                       /\ errors entry <> [].
Proof.
  induction approaches as [|a approaches (results & IH & Hlen & Hent)].
  - exists []. split_and!; [done..|]. intros i approach H. done.
  - destruct (benchmark_approach_raises net fs measure root a p) as [e He].
    rewrite (run_all_raise _ _ _ _ _ _ _ _ He). simpl. rewrite IH.
    eexists. split_and!; [done|simpl; by rewrite Hlen|].
    intros [|i] approach H; simpl in *.
    + inversion H; subst. eexists. split_and!; done.
    + by apply Hent.
Qed.

(** C8 fails as stated: the suite run with an unknown name returns a
    result list, it does not raise. *)
Lemma C8_counterexample :
  exists results,
    fst (run_all dead_net empty_fs (fun _ _ result => result) "/data"
                 ["bogus"] (mkProcess None 0))
    = Ok results.
Proof. eexists. reflexivity. Qed.

(** C8, amended. For a name outside [sql], [python] and
    [table_function], [_create_loader] raises [ValueError] naming it;
    [run_all] does not pass the error on: it returns normally with one
    entry for each requested name, and the entry of the unknown name
    has [load_time] 0 and a recorded error. *)
Theorem C8_unknown_name_is_recorded
    (net : nat -> string -> fetch_outcome) (fs : filesystem)
    (measure : loader_class -> BIDSLoader -> BenchmarkResult -> BenchmarkResult)
    (root approach : string) (before after : list string) (p : process) :
  approach <> "sql" -> approach <> "python" -> approach <> "table_function" ->
  _create_loader net fs root approach p
  = (Raise (ValueError ("Unknown approach: " +:+ approach)), p)
  /\ exists results p',
       run_all net fs measure root (before ++ approach :: after) p
       = (Ok results, p')
       /\ List.length results = List.length (before ++ approach :: after)
       /\ exists entry, results !! List.length before = Some entry
                        /\ approach_name entry = approach
                        /\ load_time entry = 0%Z
                        /\ errors entry <> [].
Proof.
  intros H1 H2 H3. split.
  - unfold _create_loader. simpl.
    apply String.eqb_neq in H1, H2, H3. by rewrite H1, H2, H3.
  - destruct (run_all_records net fs measure root
                (before ++ approach :: after) p) as (results & Hr & Hlen & Hent).
    exists results, p. split_and!; [done..|].
    apply Hent. by apply list_lookup_middle.
Qed.

Lemma C8_witness :
  "bogus" <> "sql" /\ "bogus" <> "python" /\ "bogus" <> "table_function"
  /\ _create_loader dead_net empty_fs "/data" "bogus" (mkProcess None 0)
     = (Raise (ValueError ("Unknown approach: " +:+ "bogus")), mkProcess None 0).
Proof.
  split_and!; [done..|].
  apply (C8_unknown_name_is_recorded dead_net empty_fs
           (fun _ _ result => result) "/data" "bogus" [] [] (mkProcess None 0));
    done.
Defined.


(** ** Zero matching files *)

(** C6. When the pattern matches no file, the host-eager
    [load_tsv_files] does not fail: it puts in the catalog a table
    with the single column [filepath] and no row, and returns its
    name. *)
Theorem C6_python_zero_files_placeholder (fs : filesystem) (self : BIDSLoader)
    (pattern : string) (use_full_names : bool) (con : engine) :
  glob_paths fs (join_path (bids_root self) pattern) = [] ->
  exists con',
    python_load_tsv_files fs self pattern use_full_names con
    = (Ok "bids_tsv_data", con')
    /\ catalog con' !! "bids_tsv_data" = Some (Table (mkTable ["filepath"] []))
    /\ read_relation fs "bids_tsv_data" con' = Ok (mkTable ["filepath"] [])
    /\ functions con' = functions con.
Proof.
  intros Hg. unfold python_load_tsv_files. rewrite Hg.
  eexists. split; [reflexivity|]. simpl.
  split_and!; [| unfold read_relation; simpl |done];
    by rewrite lookup_insert_eq.
Qed.

Lemma C6_witness :
  glob_paths empty_fs (join_path (bids_root fallback_loader) "**/*.tsv") = []
  /\ exists con',
       python_load_tsv_files empty_fs fallback_loader "**/*.tsv" true connect
       = (Ok "bids_tsv_data", con')
       /\ catalog con' !! "bids_tsv_data" = Some (Table (mkTable ["filepath"] []))
       /\ read_relation empty_fs "bids_tsv_data" con' = Ok (mkTable ["filepath"] [])
       /\ functions con' = functions connect.
Proof.
  split; [reflexivity|].
  apply (C6_python_zero_files_placeholder empty_fs fallback_loader
           "**/*.tsv" true connect).
  reflexivity.
Defined.

(** C5 fails as stated.  The pattern is pasted between apostrophes
    into the statement; with an apostrophe in the root the statement
    is refused by the parser, and what reaches the caller on a tree
    without files is that error, which says nothing of files. *)
Lemma C5_counterexample :
  glob_paths empty_fs (join_path (bids_root quoted_root_loader) "**/*.tsv") = []
  /\ exists e,
       sql_load_tsv_files empty_fs quoted_root_loader "**/*.tsv" true connect
       = (Raise e, connect)
       /\ no_matching_files e = false.
Proof. split; [reflexivity|]. eexists. split; reflexivity. Qed.

Lemma strip_prefix_app (p s : string) : strip_prefix p (p +:+ s) = Some s.
Proof.
  induction p as [|c p IH]; simpl; [by destruct s|].
  by rewrite Ascii.eqb_refl.
Qed.

Lemma contains_here needle post :
  contains needle (needle +:+ post) = true.
Proof.
  assert (H : starts_with needle (needle +:+ post) = true)
    by (unfold starts_with; by rewrite strip_prefix_app).
  destruct (needle +:+ post) as [|c h]; cbn [contains]; by rewrite H.
Qed.

Lemma contains_later needle pre post :
  contains needle (pre +:+ needle +:+ post) = true.
Proof.
  induction pre as [|c pre IH].
  - change ("" +:+ needle +:+ post) with (needle +:+ post).
    apply contains_here.
  - change (String c pre +:+ needle +:+ post)
      with (String c (pre +:+ needle +:+ post)).
    cbn [contains]. rewrite IH. apply orb_true_r.
Qed.

Lemma sql_select_text_ok (self : BIDSLoader) pattern b :
  plain_text (join_path (bids_root self) pattern) = true ->
  (forall s, In s (dict_keys (entity_short_to_full self)) ->
     plain_text s = true
     /\ plain_label (get_entity_column_name self s b) = true) ->
  statement_text_ok [sql_select self pattern b] = true.
Proof.
  intros Hp Hs. unfold statement_text_ok, sql_select, select_text_ok.
  cbn [forallb from items source_text_ok app item_text_ok]. rewrite Hp.
  cbn [andb plain_label]. rewrite andb_true_r.
  change (plain_label "filename") with true. cbn [andb].
  induction (dict_keys (entity_short_to_full self)) as [|s l IH];
    [done|]. cbn [map forallb item_text_ok].
  destruct (Hs s (or_introl eq_refl)) as [-> ->].
  change (plain_label "filename") with true. cbn [andb].
  apply IH. intros s' Hs'. apply Hs. by right.
Qed.

(** C5, amended.  When the glob matches no file, and the statement is
    the one meant (no apostrophe in the glob or in a short name, the
    column names plain), the engine-native [load_tsv_files] fails with
    the error of the engine's read, whose message says that no files
    were found that match the pattern; the loader neither catches it
    nor puts a condition of its own in its place; no table is made. *)
Theorem C5_sql_zero_files_no_files_found (fs : filesystem) (self : BIDSLoader)
    (pattern : string) (use_full_names : bool) (con : engine) :
  glob_paths fs (join_path (bids_root self) pattern) = [] ->
  plain_text (join_path (bids_root self) pattern) = true ->
  (forall s, In s (dict_keys (entity_short_to_full self)) ->
     plain_text s = true
     /\ plain_label (get_entity_column_name self s use_full_names) = true) ->
  exists e,
    sql_load_tsv_files fs self pattern use_full_names con = (Raise e, con)
    /\ is_engine_error e = true
    /\ no_matching_files e = true
    /\ exists pre post,
         exn_str e = pre +:+ "No files found that match the pattern" +:+ post.
Proof.
  intros Hg Hp Hs.
  exists (EngineError ("IO Error: No files found that match the pattern "
                       +:+ join_path (bids_root self) pattern)).
  split_and!.
  - unfold sql_load_tsv_files, bind, execute. fold (sql_select self pattern use_full_names).
    unfold eval_query. rewrite (sql_select_text_ok self pattern use_full_names Hp Hs).
    cbn [map_res]. unfold eval_select at 1.
    unfold sql_select at 1. cbn [from eval_source]. by rewrite Hg.
  - done.
  - unfold no_matching_files. cbn [exn_str].
    apply (contains_later "No files found" "IO Error: ").
  - exists "IO Error: ", (" " +:+ join_path (bids_root self) pattern).
    reflexivity.
Qed.

Lemma C5_witness :
  exists e,
    sql_load_tsv_files empty_fs fallback_loader "**/*.tsv" true connect
    = (Raise e, connect)
    /\ is_engine_error e = true
    /\ no_matching_files e = true.
Proof.
  destruct (C5_sql_zero_files_no_files_found empty_fs fallback_loader
              "**/*.tsv" true connect) as (e & H & He & Hn & _).
  - reflexivity.
  - reflexivity.
  - intros s Hs. vm_compute in Hs.
    repeat (destruct Hs as [<-|Hs]; [split; reflexivity|]). destruct Hs.
  - exists e. split_and!; [exact H | exact He | exact Hn].
Defined.

(** ** Registration of the scanners *)






(** ** The host-eager union *)

(** C3 fails as stated.  With files of two and of three columns the
    host-eager load raises; with files of two columns each, one named
    differently, it succeeds but the table has no column of that
    name. *)
Lemma C3_counterexample :
  ~ tolerates_columns two_and_three_columns fallback_loader "**/*.tsv" true
  /\ ~ tolerates_columns two_and_two_columns fallback_loader "**/*.tsv" true.
Proof.
  split.
  - intros (t & H & _). vm_compute in H. discriminate.
  - intros (t & H & Hc). vm_compute in H. inversion H; subst. clear H.
    specialize (Hc "/data/sub-02_task-rest_events.tsv" events2').
    simpl in Hc.
    specialize (Hc (or_intror (or_introl eq_refl)) eq_refl "trial_type").
    simpl in Hc. destruct Hc as [?|[?|[?|[?|[?|[?|[]]]]]]]; [tauto|..]; discriminate.
Qed.

Lemma entity_cols_items (info : dict string) :
  flat_map (fun '(key, value) =>
              if String.eqb key "filepath" || String.eqb key "filename"
              then [] else [Lit value key]) info
  = map (fun kv => Lit (snd kv) (fst kv)) (entity_items info).
Proof.
  unfold entity_items. induction info as [|[k v] info IH]; simpl; [done|].
  destruct (String.eqb k "filepath" || String.eqb k "filename"); simpl;
    by rewrite IH.
Qed.

Lemma lit_items_ok (t : table) (l : dict string) :
  forallb (item_ok t) (map (fun kv => Lit (snd kv) (fst kv)) l ++ [Star]) = true.
Proof. induction l; simpl; done. Qed.

Lemma lit_items_columns (t : table) (l : dict string) :
  flat_map (item_columns t) (map (fun kv => Lit (snd kv) (fst kv)) l)
  = dict_keys l.
Proof. unfold dict_keys. induction l; simpl; [done | by f_equal]. Qed.

Lemma lit_items_values (t : table) (row : list value) (l : dict string) :
  flat_map (fun it => item_values t it row)
           (map (fun kv => Lit (snd kv) (fst kv)) l)
  = map (fun kv => Some (snd kv)) l.
Proof. induction l; simpl; [done | by f_equal]. Qed.

Lemma eval_union_part fs con (info : dict string) (t : table) :
  read_csv_or_raise fs (dict_get_default "filepath" "" info) = Ok t ->
  eval_select fs con (union_part info) = Ok (python_part info t).
Proof.
  intros Hr. unfold eval_select, union_part. simpl. rewrite Hr.
  rewrite entity_cols_items, lit_items_ok. unfold python_part.
  f_equal. f_equal.
  - rewrite flat_map_app. simpl. by rewrite app_nil_r, lit_items_columns.
  - apply map_ext. intros row. rewrite flat_map_app. simpl.
    by rewrite app_nil_r, lit_items_values.
Qed.

Lemma eval_union_parts fs con (infos : list (dict string)) (ts : list table) :
  map_res (fun info => read_csv_or_raise fs (dict_get_default "filepath" "" info))
          infos = Ok ts ->
  map_res (eval_select fs con) (map union_part infos)
  = Ok (zip_with python_part infos ts).
Proof.
  revert ts. induction infos as [|info infos IH]; simpl; intros ts H.
  - by inversion H.
  - destruct (read_csv_or_raise fs (dict_get_default "filepath" "" info))
      as [t|e] eqn:Er; [|done].
    destruct (map_res _ infos) as [ts'|e] eqn:Em; [|done].
    inversion H; subst. rewrite (eval_union_part fs con info t Er).
    by rewrite (IH ts' eq_refl).
Qed.

Lemma union_all_same_width (ts : list table) :
  ts <> [] ->
  if same_width ts
  then union_all ts
       = Ok (mkTable (default [] (columns <$> head ts)) (flat_map rows ts))
  else exists e, union_all ts = Raise e /\ is_engine_error e = true.
Proof.
  destruct ts as [|t rest]; [done|]. intros _. unfold union_all, same_width.
  destruct (forallb _ rest); [done|]. by eexists.
Qed.

Lemma same_name_sym a b : same_name a b = same_name b a.
Proof. unfold same_name. apply String.eqb_sym. Qed.

Lemma dedup_from_distinct (seen cols : list string) :
  (forall c, In c cols -> name_in c seen = false) ->
  distinct_names cols = true ->
  dedup_from seen cols = cols.
Proof.
  revert seen. induction cols as [|c rest IH]; intros seen Hseen Hd; [done|].
  simpl in Hd. apply andb_true_iff in Hd as [Hc Hd].
  apply negb_true_iff in Hc. cbn [dedup_from].
  rewrite (Hseen c) by (by left). f_equal. apply IH; [|done].
  intros c' Hc'.
  change (name_in c' (c :: seen)) with (same_name c' c || name_in c' seen).
  rewrite (Hseen c') by (by right). rewrite orb_false_r.
  rewrite same_name_sym.
  unfold name_in in Hc. rewrite <- not_true_iff_false in Hc.
  apply not_true_iff_false. intros Hs. apply Hc.
  apply existsb_exists. by exists c'.
Qed.

Lemma dedup_names_distinct (cols : list string) :
  distinct_names cols = true -> dedup_names cols = cols.
Proof. intros H. by apply dedup_from_distinct. Qed.

(** C3, amended.  The host-eager variant joins its per-file selects
    by position.  With every matched file read, and the statement the
    one meant (no apostrophe in a pasted path or value, the pasted
    column names plain), the load succeeds exactly when the selects
    (the literal columns [filepath], [filename] and the entities of
    the file name, then the file's own columns) all have the same
    number of columns; the table then has the rows of all of them,
    cell for cell in their positions, under the column names of the
    first select (these being distinct).  Otherwise the engine's error
    reaches the caller and no table is made. *)
Theorem C3_python_union_is_positional (fs : filesystem) (self : BIDSLoader)
    (pattern : string) (use_full_names : bool) (con : engine)
    (infos : list (dict string)) (ts : list table) :
  glob_paths fs (join_path (bids_root self) pattern) <> [] ->
  infos = map (fun path => file_info path (file_entities self use_full_names path))
              (glob_paths fs (join_path (bids_root self) pattern)) ->
  statement_text_ok (map union_part infos) = true ->
  map_res (fun info => read_csv_or_raise fs (dict_get_default "filepath" "" info))
          infos = Ok ts ->
  let parts := zip_with python_part infos ts in
  distinct_names (default [] (columns <$> head parts)) = true ->
  if same_width parts
  then exists con',
         python_load_tsv_files fs self pattern use_full_names con
         = (Ok "bids_tsv_data", con')
         /\ read_relation fs "bids_tsv_data" con'
            = Ok (mkTable (default [] (columns <$> head parts))
                          (flat_map rows parts))
  else exists e,
         python_load_tsv_files fs self pattern use_full_names con = (Raise e, con)
         /\ is_engine_error e = true.
Proof.
  intros Hne Hinfos Htext Hread parts Hdist.
  assert (Hq : eval_query fs con (map union_part infos) = union_all parts).
  { unfold eval_query. rewrite Htext.
    by rewrite (eval_union_parts fs con infos ts Hread). }
  assert (Hparts : parts <> []).
  { unfold parts. subst infos.
    destruct (glob_paths fs (join_path (bids_root self) pattern)); [done|].
    simpl in *. destruct (read_csv_or_raise fs _); [|done].
    destruct (map_res _ _); [|done]. by inversion Hread. }
  assert (Hload : python_load_tsv_files fs self pattern use_full_names con
                  = match union_all parts with
                    | Ok t =>
                        (Ok "bids_tsv_data",
                         mkEngine
                           (<["bids_tsv_data" :=
                                Table (mkTable (dedup_names (columns t))
                                               (rows t))]> (catalog con))
                           (functions con))
                    | Raise e => (Raise e, con)
                    end).
  { unfold python_load_tsv_files.
    destruct (glob_paths fs (join_path (bids_root self) pattern)) eqn:Eg; [done|].
    rewrite <- Hinfos. unfold bind, execute. rewrite Hq.
    destruct (union_all parts); [|done].
    unfold count_rows, read_relation. simpl. by rewrite lookup_insert_eq. }
  pose proof (union_all_same_width parts Hparts) as Hu.
  destruct (same_width parts).
  - rewrite Hload, Hu. eexists. split; [done|].
    unfold read_relation. simpl. rewrite lookup_insert_eq.
    by rewrite dedup_names_distinct.
  - destruct Hu as (e & Hu & He). exists e. by rewrite Hload, Hu.
Qed.

Lemma C3_witness :
  let fs := session_in_names in
  let paths := glob_paths fs (join_path (bids_root fallback_loader) "**/*.tsv") in
  let infos := map (fun path => file_info path (file_entities fallback_loader true path))
                   paths in
  let ts := [events2; events2] in
  paths <> []
  /\ map_res (fun info => read_csv_or_raise fs (dict_get_default "filepath" "" info))
             infos = Ok ts
  /\ exists con',
       python_load_tsv_files fs fallback_loader "**/*.tsv" true connect
       = (Ok "bids_tsv_data", con')
       /\ read_relation fs "bids_tsv_data" con'
          = Ok (mkTable (default [] (columns <$> head (zip_with python_part infos ts)))
                        (flat_map rows (zip_with python_part infos ts))).
Proof.
  intros fs paths infos ts.
  split; [discriminate|]. split; [reflexivity|].
  apply (C3_python_union_is_positional fs fallback_loader "**/*.tsv" true
           connect infos ts);
    [discriminate | reflexivity | reflexivity | reflexivity | reflexivity].
Defined.

(** ** Cross-variant equivalence *)

(** C1 fails on the tree of two subjects with a shared task, where
    the session of the second subject is named by its directory: the
    three loads do not give relations that agree, the host-lazy load
    giving no relation at all. *)
Lemma C1_counterexample :
  ~ variants_agree session_in_directory fallback_loader "**/*.tsv" true.
Proof.
  intros (t_sql & t_py & t_tf & _ & _ & Ht & _). vm_compute in Ht.
  discriminate.
Qed.

(** C1, the code on that tree.  The host-lazy load raises the
    engine's error at the registration of its scanners.  The
    engine-native and the host-eager loads both make their table, with
    the same number of rows; for the file of the second subject the
    engine-native table has the session [pre], taken from the
    directory, where the host-eager table has none; and for the file
    of the first subject the engine-native table has the empty text as
    session, a value that is not null, where the host-eager table has
    none. *)
Theorem C1_fixture_divergence :
  (exists msg,
     table_function_relation session_in_directory fallback_loader "**/*.tsv" true
     = Raise (EngineError msg))
  /\ exists t_sql t_py,
       sql_relation session_in_directory fallback_loader "**/*.tsv" true
       = Ok t_sql
       /\ python_relation session_in_directory fallback_loader "**/*.tsv" true
          = Ok t_py
       /\ List.length (rows t_sql) = List.length (rows t_py)
       /\ entity_values "filename"
            "/data/sub-02/ses-pre/func/sub-02_task-rest_events.tsv" "session" t_sql
          = ["pre"; "pre"]
       /\ entity_values "filepath"
            "/data/sub-02/ses-pre/func/sub-02_task-rest_events.tsv" "session" t_py
          = []
       /\ entity_values "filename"
            "/data/sub-01/func/sub-01_task-rest_events.tsv" "session" t_sql
          = [""; ""]
       /\ entity_values "filepath"
            "/data/sub-01/func/sub-01_task-rest_events.tsv" "session" t_py
          = [].
Proof.
  split; [eexists; vm_compute; reflexivity|].
  eexists _, _. split_and!; [reflexivity..| | | | |]; vm_compute; reflexivity.
Qed.


(** ** Lookups in rows *)

Lemma dict_get_app {V} (c : string) (a b : dict V) :
  dict_get c (a ++ b)
  = match dict_get c a with Some v => Some v | None => dict_get c b end.
Proof.
  induction a as [|[k v] a IH]; simpl; [done|].
  by destruct (String.eqb c k).
Qed.

Lemma combine_app_eq {A B} (a b : list A) (x y : list B) :
  List.length a = List.length x ->
  combine (a ++ b) (x ++ y) = combine a x ++ combine b y.
Proof.
  revert x. induction a as [|h a IH]; intros [|h' x] H; simpl in *;
    try done. f_equal. apply IH. lia.
Qed.

Lemma dict_get_combine_notin {V} (c : string) (cols : list string) (row : list V) :
  ~ In c cols -> dict_get c (combine cols row) = None.
Proof.
  revert row. induction cols as [|k cols IH]; intros [|v row] H; simpl in *;
    try done.
  destruct (String.eqb c k) eqn:E.
  - apply String.eqb_eq in E. subst k. exfalso. apply H. by left.
  - apply IH. intros Hin. apply H. by right.
Qed.

Lemma dict_get_text_values (c : string) (d : dict string) :
  dict_get c (text_values d) = Some <$> dict_get c d.
Proof.
  unfold text_values. induction d as [|[k v] d IH]; simpl; [done|].
  by destruct (String.eqb c k).
Qed.

Lemma combine_keys_values (d : dict string) :
  combine (dict_keys d) (map (fun kv => Some (snd kv)) d) = text_values d.
Proof.
  unfold dict_keys, text_values.
  induction d as [|[k v] d IH]; simpl; [done | by f_equal].
Qed.

Lemma dict_get_filter {V} (P : string -> bool) (c : string) (d : dict V) :
  P c = true ->
  dict_get c (List.filter (fun kv => P (fst kv)) d) = dict_get c d.
Proof.
  intros HP. induction d as [|[k v] d IH]; simpl; [done|].
  destruct (String.eqb c k) eqn:E.
  - apply String.eqb_eq in E. subst k. rewrite HP. simpl.
    by rewrite String.eqb_refl.
  - destruct (P k); simpl; [by rewrite E | done].
Qed.

(** ** Dictionary updates *)

Lemma dict_update_snoc {V} (d e : dict V) k v :
  dict_update d (e ++ [(k, v)]) = dict_set k v (dict_update d e).
Proof. unfold dict_update. by rewrite fold_left_app. Qed.

Lemma dict_get_update {V} (c : string) (d e : dict V) :
  List.NoDup (dict_keys e) ->
  dict_get c (dict_update d e)
  = match dict_get c e with Some v => Some v | None => dict_get c d end.
Proof.
  induction e as [|[k v] e IH] using rev_ind; intros Hnd; [done|].
  rewrite dict_update_snoc, dict_get_app.
  unfold dict_keys in Hnd. rewrite map_app in Hnd. simpl in Hnd.
  apply NoDup_ListNoDup, NoDup_app in Hnd as (Hnd & Hfresh & _).
  apply NoDup_ListNoDup in Hnd. specialize (IH Hnd).
  destruct (String.eqb k c) eqn:E.
  - apply String.eqb_eq in E. subst c. rewrite dict_get_set_eq.
    assert (Hn : dict_get k e = None).
    { apply dict_get_None_keys. intros Hin. apply (Hfresh k).
      - by apply list_elem_of_In.
      - apply list_elem_of_singleton. done. }
    rewrite Hn. simpl. by rewrite String.eqb_refl.
  - apply String.eqb_neq in E. rewrite dict_get_set_ne by done. rewrite IH.
    destruct (dict_get c e); [done|]. simpl.
    destruct (String.eqb c k) eqn:E'; [|done].
    apply String.eqb_eq in E'. congruence.
Qed.

Lemma dict_update_NoDup {V} (d e : dict V) :
  List.NoDup (dict_keys d) -> List.NoDup (dict_keys (dict_update d e)).
Proof.
  intros Hd. induction e as [|[k v] e IH] using rev_ind; [done|].
  rewrite dict_update_snoc. by apply dict_set_NoDup.
Qed.

Lemma dict_update_keys {V} (c : string) (d e : dict V) :
  In c (dict_keys (dict_update d e)) -> In c (dict_keys d) \/ In c (dict_keys e).
Proof.
  induction e as [|[k v] e IH] using rev_ind; [by left|].
  rewrite dict_update_snoc, dict_keys_set.
  assert (Hk : dict_keys (e ++ [(k, v)]) = dict_keys e ++ [k])
    by (unfold dict_keys; by rewrite map_app).
  rewrite Hk. clear Hk. rewrite (in_app_iff (dict_keys e)). simpl.
  destruct (dict_mem k (dict_update d e)).
  - intros H. destruct (IH H); tauto.
  - rewrite in_app_iff. simpl. intros [H|[->|[]]]; [|tauto].
    destruct (IH H); tauto.
Qed.

Lemma zip_dict_notin (c : string) (cols : list string) (row : list value) :
  ~ In c cols -> dict_get c (zip_dict cols row) = None.
Proof.
  intros Hc. apply dict_get_None_keys. intros Hin.
  assert (Hz : zip_dict cols row = dict_update [] (combine cols row)).
  { unfold zip_dict, dict_update. generalize (@nil (string * value)).
    induction (combine cols row) as [|[k v] l IHl]; intros d; simpl;
      [done | apply IHl]. }
  rewrite Hz in Hin. apply dict_update_keys in Hin as [[]|Hin].
  apply Hc. unfold dict_keys in Hin.
  revert Hin. clear. revert row.
  induction cols as [|k cols IH]; intros [|v row]; simpl; try done.
  intros [->|H]; [by left | right; by eapply IH].
Qed.

(** ** The entities of a file *)

Lemma parse_keys_known known toks k :
  In k (dict_keys (parse_tokens known toks)) -> In k (dict_keys known).
Proof.
  induction toks as [|[k' v] toks IH] using rev_ind; [done|].
  rewrite parse_tokens_snoc. destruct (dict_mem k' known) eqn:E; [|done].
  rewrite dict_keys_set.
  destruct (dict_mem k' (parse_tokens known toks)); [done|].
  rewrite in_app_iff. simpl. intros [H|[->|[]]]; [by apply IH|].
  unfold dict_mem in E. destruct (dict_get k known) eqn:G; [|done].
  destruct (in_dec string_dec k (dict_keys known)) as [|Hn]; [done|].
  apply dict_get_None_keys in Hn. congruence.
Qed.

Lemma to_full_names_snoc self e k v :
  to_full_names self (e ++ [(k, v)])
  = dict_set (get_entity_full_name self k) v (to_full_names self e).
Proof. unfold to_full_names. by rewrite fold_left_app. Qed.

Lemma to_full_names_keys self e c :
  In c (dict_keys (to_full_names self e)) ->
  exists k, In k (dict_keys e) /\ c = get_entity_full_name self k.
Proof.
  induction e as [|[k v] e IH] using rev_ind; [done|].
  rewrite to_full_names_snoc, dict_keys_set.
  assert (Hk : dict_keys (e ++ [(k, v)]) = dict_keys e ++ [k])
    by (unfold dict_keys; by rewrite map_app).
  rewrite Hk. clear Hk.
  assert (Hold : In c (dict_keys (to_full_names self e)) ->
                 exists k0, In k0 (dict_keys e ++ [k])
                            /\ c = get_entity_full_name self k0).
  { intros H. destruct (IH H) as (k0 & Hin & ->). exists k0.
    split; [apply in_app_iff; by left | done]. }
  destruct (dict_mem _ (to_full_names self e)); [done|].
  rewrite in_app_iff. simpl. intros [H|[<-|[]]]; [by apply Hold|].
  exists k. split; [apply in_app_iff; right; by left | done].
Qed.

Lemma to_full_names_NoDup self e :
  List.NoDup (dict_keys (to_full_names self e)).
Proof.
  induction e as [|[k v] e IH] using rev_ind; [constructor|].
  rewrite to_full_names_snoc. by apply dict_set_NoDup.
Qed.

Lemma parse_bids_entities_tokens self p :
  parse_bids_entities self p
  = parse_tokens (entity_short_to_full self) (finditer (path_name p)).
Proof. reflexivity. Qed.

Lemma file_entities_keys self b p c :
  In c (dict_keys (file_entities self b p)) -> In c (entity_columns self b).
Proof.
  unfold file_entities, entity_columns, get_entity_column_name.
  rewrite parse_bids_entities_tokens. destruct b.
  - intros H. apply to_full_names_keys in H as (k & Hk & ->).
    apply in_map_iff. exists k. split; [done|].
    by apply parse_keys_known in Hk.
  - intros H. apply parse_keys_known in H. rewrite map_id. done.
Qed.

Lemma file_entities_NoDup self b p :
  List.NoDup (dict_keys (file_entities self b p)).
Proof.
  unfold file_entities. rewrite parse_bids_entities_tokens. destruct b.
  - apply to_full_names_NoDup.
  - apply parse_tokens_NoDup.
Qed.


(** ** The dictionary of a file *)

Lemma dict_keys_app {V} (a b : dict V) :
  dict_keys (a ++ b) = dict_keys a ++ dict_keys b.
Proof. unfold dict_keys. apply map_app. Qed.

Lemma dict_update_fresh_keys {V} (d e : dict V) :
  List.NoDup (dict_keys e) ->
  (forall k, In k (dict_keys e) -> ~ In k (dict_keys d)) ->
  dict_keys (dict_update d e) = dict_keys d ++ dict_keys e.
Proof.
  induction e as [|[k v] e IH] using rev_ind; intros Hnd Hfresh.
  - simpl. by rewrite app_nil_r.
  - rewrite dict_update_snoc, dict_keys_set, dict_keys_app. simpl.
    rewrite dict_keys_app in Hnd, Hfresh. simpl in Hnd, Hfresh.
    apply NoDup_ListNoDup, NoDup_app in Hnd as (Hnd & Hk & _).
    apply NoDup_ListNoDup in Hnd.
    assert (IH' : dict_keys (dict_update d e) = dict_keys d ++ dict_keys e).
    { apply IH; [done|]. intros k0 Hk0. apply Hfresh, in_app_iff. by left. }
    assert (Hmem : dict_mem k (dict_update d e) = false).
    { unfold dict_mem.
      destruct (dict_get k (dict_update d e)) eqn:G; [|done].
      exfalso.
      assert (Hin : In k (dict_keys (dict_update d e))).
      { destruct (in_dec string_dec k (dict_keys (dict_update d e)))
          as [|Hn]; [done|].
        apply dict_get_None_keys in Hn. congruence. }
      rewrite IH' in Hin. apply in_app_iff in Hin as [Hin|Hin].
      - apply (Hfresh k); [|done]. apply in_app_iff. right. by left.
      - apply (Hk k); [by apply list_elem_of_In|].
        by apply list_elem_of_singleton. }
    rewrite Hmem, IH'. by rewrite app_assoc.
Qed.

Lemma filter_all {A} (f : A -> bool) (l : list A) :
  (forall x, In x l -> f x = true) -> List.filter f l = l.
Proof.
  induction l as [|x l IH]; intros H; simpl; [done|].
  rewrite (H x) by (by left). f_equal. apply IH. intros y Hy. apply H.
  by right.
Qed.

Lemma dict_keys_filter {V} (P : string -> bool) (d : dict V) :
  dict_keys (List.filter (fun kv => P (fst kv)) d)
  = List.filter P (dict_keys d).
Proof.
  unfold dict_keys. induction d as [|[k v] d IH]; simpl; [done|].
  destruct (P k); simpl; by rewrite IH.
Qed.

Lemma not_path_key_true k :
  k <> "filepath" -> k <> "filename" ->
  negb (String.eqb k "filepath" || String.eqb k "filename") = true.
Proof.
  intros H1 H2. apply String.eqb_neq in H1, H2. by rewrite H1, H2.
Qed.

Section FileInfo.

Variables (p : string) (e : dict string).
Hypothesis e_NoDup : List.NoDup (dict_keys e).
Hypothesis e_filepath : ~ In "filepath" (dict_keys e).
Hypothesis e_filename : ~ In "filename" (dict_keys e).

Lemma file_info_keys :
  dict_keys (file_info p e) = ["filepath"; "filename"] ++ dict_keys e.
Proof.
  unfold file_info. rewrite dict_update_fresh_keys; [done | done |].
  intros k Hk [<-|[<-|[]]]; tauto.
Qed.

Lemma entity_items_keys : dict_keys (entity_items (file_info p e)) = dict_keys e.
Proof.
  unfold entity_items.
  rewrite (dict_keys_filter
    (fun k => negb (String.eqb k "filepath" || String.eqb k "filename"))),
    file_info_keys. simpl.
  apply filter_all. intros k Hk. apply not_path_key_true; congruence.
Qed.

Lemma file_info_filepath : dict_get "filepath" (file_info p e) = Some p.
Proof.
  unfold file_info. rewrite dict_get_update by done.
  apply dict_get_None_keys in e_filepath. by rewrite e_filepath.
Qed.

Lemma file_info_entity c :
  c <> "filepath" -> c <> "filename" ->
  dict_get c (file_info p e) = dict_get c e.
Proof.
  intros H1 H2. unfold file_info. rewrite dict_get_update by done.
  destruct (dict_get c e); [done|]. simpl.
  apply String.eqb_neq in H1, H2. by rewrite H1, H2.
Qed.

Lemma entity_items_get c :
  c <> "filepath" -> c <> "filename" ->
  dict_get c (entity_items (file_info p e)) = dict_get c e.
Proof.
  intros H1 H2. unfold entity_items.
  rewrite (dict_get_filter
    (fun k => negb (String.eqb k "filepath" || String.eqb k "filename")))
    by (by apply not_path_key_true).
  by apply file_info_entity.
Qed.

End FileInfo.

(** ** Lists of rows *)

Lemma map_flat_map_comm {A B C} (f : B -> C) (g : A -> list B) (l : list A) :
  map f (flat_map g l) = flat_map (fun x => map f (g x)) l.
Proof.
  induction l as [|a l IH]; simpl; [done|]. by rewrite map_app, IH.
Qed.

Lemma flat_map_eq_in {A B} (f g : A -> list B) (l : list A) :
  (forall x, In x l -> f x = g x) -> flat_map f l = flat_map g l.
Proof.
  induction l as [|a l IH]; intros H; simpl; [done|].
  rewrite (H a) by (by left). f_equal. apply IH. intros x Hx. apply H.
  by right.
Qed.


(** * Further properties of the code *)

(** ** benchmark.py *)

Lemma run_all_entries
    (net : nat -> string -> fetch_outcome) (fs : filesystem)
    (measure : loader_class -> BIDSLoader -> BenchmarkResult -> BenchmarkResult)
    (root : string) (approaches : list string) (p : process) :
  exists results,
    run_all net fs measure root approaches p = (Ok results, p)
    /\ map approach_name results = approaches
    /\ Forall (fun entry =>
                 load_time entry = 0%Z
                 /\ row_counts entry = []
                 /\ query_times entry = []
                 /\ errors entry
                    = ["BenchmarkResult.__init__() missing 1 required positional argument: 'load_time'"])
              results.
Proof.
  induction approaches as [|a approaches (results & IH & Hnames & Hall)].
  - exists []. by split_and!.
  - assert (He : _benchmark_approach net fs measure root a p
                 = (Raise (TypeError "BenchmarkResult.__init__() missing 1 required positional argument: 'load_time'"), p))
      by reflexivity.
    rewrite (run_all_raise _ _ _ _ _ _ _ _ He). simpl. rewrite IH.
    eexists. split_and!; [done | simpl; by rewrite Hnames |].
    constructor; [by split_and! | done].
Qed.

(** X1. [_benchmark_approach] begins with
    [BenchmarkResult(approach_name=approach)], which lacks the required
    [load_time]; so for every list of approaches, known or not,
    [run_all] returns one entry for each name in order, every entry
    with [load_time] 0, no row counts, no query times, and the message
    of that [TypeError] as its only error; no schema is fetched and no
    loader is made (the process is as before). *)
Theorem X1_run_all_records_missing_load_time
    (net : nat -> string -> fetch_outcome) (fs : filesystem)
    (measure : loader_class -> BIDSLoader -> BenchmarkResult -> BenchmarkResult)
    (root : string) (approaches : list string) (p : process) :
  exists results,
    run_all net fs measure root approaches p = (Ok results, p)
    /\ map approach_name results = approaches
    /\ Forall (fun entry =>
                 load_time entry = 0%Z
                 /\ row_counts entry = []
                 /\ query_times entry = []
                 /\ errors entry
                    = ["BenchmarkResult.__init__() missing 1 required positional argument: 'load_time'"])
              results.
Proof. apply run_all_entries. Qed.

(** ** schema.py *)

(** X2. When the fetched document parses to a list or a text (it has
    a length but is no mapping), [load_entities] keeps it; the first
    [get_entity_mapping] then raises [AttributeError], having already
    stored an empty mapping, so that every later [get_entity_mapping]
    returns the empty mapping without raising and without a request,
    while [get_entity_display_names] keeps raising [AttributeError]. *)
Theorem X2_non_mapping_document
    (net : nat -> string -> fetch_outcome) (version type_name : string)
    (requests n : nat) :
  net requests (base_url (BIDSSchema_init version) +:+ "/entities.yaml")
  = Loaded (YSized type_name n) ->
  exists self1 msg,
    get_entity_mapping net (BIDSSchema_init version) requests
    = (Raise (AttributeError msg), self1, S requests)
    /\ forall net' k,
         get_entity_mapping net' self1 k = (Ok [], self1, k)
         /\ exists msg',
              get_entity_display_names net' self1 k
              = (Raise (AttributeError msg'), self1, k).
Proof.
  intros Hnet. eexists _, _. split.
  - unfold get_entity_mapping, load_entities. simpl. rewrite Hnet. simpl.
    reflexivity.
  - intros net' k. split; [reflexivity|]. eexists. reflexivity.
Qed.

Lemma X2_witness :
  exists self1 msg,
    get_entity_mapping (fun _ _ => Loaded (YSized "list" 3))
                       (BIDSSchema_init "master") 0
    = (Raise (AttributeError msg), self1, 1).
Proof.
  destruct (X2_non_mapping_document (fun _ _ => Loaded (YSized "list" 3))
              "master" "list" 0 3 eq_refl) as (self1 & msg & H & _).
  exists self1, msg. exact H.
Defined.

Lemma dict_mem_keys {V W} (k : string) (m : dict V) (m' : dict W) :
  dict_keys m = dict_keys m' -> dict_mem k m = dict_mem k m'.
Proof.
  intros H. unfold dict_mem.
  destruct (dict_get k m) eqn:E, (dict_get k m') eqn:E'; try done.
  - apply dict_get_None_keys in E'. rewrite <- H in E'.
    apply dict_get_None_keys in E'. congruence.
  - apply dict_get_None_keys in E. rewrite H in E.
    apply dict_get_None_keys in E. congruence.
Qed.

Lemma dict_set_same_keys {V W} (k : string) (v : V) (w : W) m m' :
  dict_keys m = dict_keys m' ->
  dict_keys (dict_set k v m) = dict_keys (dict_set k w m').
Proof.
  intros H. rewrite !dict_keys_set, (dict_mem_keys k m m' H), H. done.
Qed.

Lemma short_to_full_of_snoc d full def :
  short_to_full_of (d ++ [(full, def)])
  = if truthy (dict_get "name" def)
    then dict_set (default "" (dict_get "name" def)) full (short_to_full_of d)
    else short_to_full_of d.
Proof. unfold short_to_full_of. by rewrite fold_left_app. Qed.

Lemma display_names_of_snoc d full def :
  display_names_of (d ++ [(full, def)])
  = if truthy (dict_get "name" def)
    then dict_set (default "" (dict_get "name" def))
           (dict_get_default "display_name"
              (title (dict_get_default "name" "" def)) def)
           (display_names_of d)
    else display_names_of d.
Proof. unfold display_names_of. by rewrite fold_left_app. Qed.

(** X3. The mapping of short names to full names and the mapping of
    short names to display names, made from the same definitions, have
    the same keys in the same order. *)
Theorem X3_mapping_and_display_names_same_keys (d : dict (dict string)) :
  dict_keys (short_to_full_of d) = dict_keys (display_names_of d).
Proof.
  induction d as [|[full def] d IH] using rev_ind; [done|].
  rewrite short_to_full_of_snoc, display_names_of_snoc.
  destruct (truthy (dict_get "name" def)); [|done].
  by apply dict_set_same_keys.
Qed.

Lemma truthy_Some (o : option string) :
  truthy o = true -> exists s, o = Some s /\ s <> "".
Proof.
  destruct o as [[|c s]|]; simpl; try done. intros _. by eexists.
Qed.

Lemma truthy_nonempty (s : string) : s <> "" -> truthy (Some s) = true.
Proof. by destruct s. Qed.

Lemma short_to_full_of_sound d k full :
  dict_get k (short_to_full_of d) = Some full ->
  k <> "" /\ exists def, In (full, def) d /\ dict_get "name" def = Some k.
Proof.
  induction d as [|[f def] d IH] using rev_ind; [done|].
  rewrite short_to_full_of_snoc.
  assert (Hold : dict_get k (short_to_full_of d) = Some full ->
                 k <> "" /\ exists def0, In (full, def0) (d ++ [(f, def)])
                                        /\ dict_get "name" def0 = Some k).
  { intros H. destruct (IH H) as (Hk & def0 & Hin & Hn). split; [done|].
    exists def0. split; [apply in_app_iff; by left | done]. }
  destruct (truthy (dict_get "name" def)) eqn:T; [|done].
  apply truthy_Some in T as (s & Hs & Hne). rewrite Hs. simpl.
  destruct (string_dec s k) as [->|Hsk].
  - rewrite dict_get_set_eq. intros [= ->]. split; [done|].
    exists def. split; [apply in_app_iff; right; by left | done].
  - by rewrite dict_get_set_ne.
Qed.

Lemma short_to_full_of_complete d k full def :
  In (full, def) d -> dict_get "name" def = Some k -> k <> "" ->
  exists full', dict_get k (short_to_full_of d) = Some full'.
Proof.
  intros Hin Hn Hk.
  induction d as [|[f def0] d IH] using rev_ind; [done|].
  rewrite short_to_full_of_snoc. apply in_app_iff in Hin as [Hin|Hin].
  - destruct (IH Hin) as [full' Hget].
    destruct (truthy (dict_get "name" def0)) eqn:T; [|by exists full'].
    apply truthy_Some in T as (s & Hs & Hne). rewrite Hs. simpl.
    destruct (string_dec s k) as [->|Hsk].
    + exists f. apply dict_get_set_eq.
    + exists full'. by rewrite dict_get_set_ne.
  - destruct Hin as [[= -> ->]|[]]. rewrite Hn, truthy_nonempty by done.
    simpl. exists full. apply dict_get_set_eq.
Qed.

(** X4. A short name is a key of the mapping exactly when it is not
    empty and is the [name] of some definition; the full name it maps
    to is then that of a definition with this [name].  Definitions
    with no [name], or an empty one, give no key. *)
Theorem X4_mapping_keys_are_the_names (d : dict (dict string)) (k : string) :
  (k <> "" /\ exists full def, In (full, def) d
                               /\ dict_get "name" def = Some k)
  <-> exists full, dict_get k (short_to_full_of d) = Some full
                   /\ exists def, In (full, def) d
                                  /\ dict_get "name" def = Some k.
Proof.
  split.
  - intros (Hk & full & def & Hin & Hn).
    destruct (short_to_full_of_complete d k full def Hin Hn Hk)
      as [full' Hget].
    exists full'. split; [done|].
    by destruct (short_to_full_of_sound d k full' Hget).
  - intros (full & Hget & def & Hin & Hn).
    destruct (short_to_full_of_sound d k full Hget) as [Hk _].
    split; [done|]. by exists full, def.
Qed.

(** ** base.py *)

Lemma load_entities_requests net self n :
  n <= snd (load_entities net self n)
  /\ (is_none (_entities self) = true -> n < snd (load_entities net self n)).
Proof.
  unfold load_entities. destruct (is_none (_entities self)); simpl.
  - destruct (net n _) as [| | |doc]; simpl; try lia.
    destruct (py_len doc); simpl; lia.
  - split; [lia | done].
Qed.

Lemma get_entity_mapping_outcome net self n r self1 n1 :
  get_entity_mapping net self n = (r, self1, n1) ->
  n <= n1 /\ forall e, r = Raise e -> exists msg, e = AttributeError msg.
Proof.
  unfold get_entity_mapping. destruct (_entity_short_to_full self).
  - intros [= <- <- <-]. split; [lia | done].
  - pose proof (load_entities_requests net self n) as [Hle _].
    destruct (load_entities net self n) as [[doc s1] k]. simpl in Hle.
    destruct doc; intros [= <- <- <-]; (split; [lia|]); intros e [= <-];
      by eexists.
Qed.

Lemma get_entity_display_names_outcome net self n r self1 n1 :
  get_entity_display_names net self n = (r, self1, n1) ->
  n <= n1 /\ forall e, r = Raise e -> exists msg, e = AttributeError msg.
Proof.
  unfold get_entity_display_names.
  pose proof (load_entities_requests net self n) as [Hle _].
  destruct (load_entities net self n) as [[doc s1] k]. simpl in Hle.
  destruct doc; intros [= <- <- <-]; (split; [lia|]); intros e [= <-];
    by eexists.
Qed.

Lemma get_default_schema_requests net p schema p1 :
  get_default_schema net p = (schema, p1) ->
  default_schema p1 <> None
  /\ requests_made p <= requests_made p1
  /\ (default_schema p = None -> requests_made p < requests_made p1).
Proof.
  unfold get_default_schema. destruct (default_schema p) eqn:E.
  - intros [= <- <-]. rewrite E. split_and!; [done | lia | done].
  - pose proof (load_entities_requests net (BIDSSchema_init "master")
                  (requests_made p)) as [_ Hlt].
    destruct (load_entities net (BIDSSchema_init "master") (requests_made p))
      as [[doc s1] k]. simpl in Hlt. specialize (Hlt eq_refl).
    intros [= <- <-]. simpl. split_and!; [done | lia | intros _; lia].
Qed.

Lemma on_default_schema_outcome {A} net
    (method : BIDSSchema -> nat -> res A * BIDSSchema * nat) p r p' :
  (forall self n r self1 n1, method self n = (r, self1, n1) ->
     n <= n1 /\ forall e, r = Raise e -> exists msg, e = AttributeError msg) ->
  on_default_schema net method p = (r, p') ->
  default_schema p' <> None
  /\ requests_made p <= requests_made p'
  /\ (default_schema p = None -> requests_made p < requests_made p')
  /\ forall e, r = Raise e -> exists msg, e = AttributeError msg.
Proof.
  intros Hm. unfold on_default_schema.
  destruct (get_default_schema net p) as [schema p1] eqn:G.
  apply get_default_schema_requests in G as (_ & Hle & Hlt).
  destruct (method schema (requests_made p1)) as [[a s1] k] eqn:Em.
  apply Hm in Em as [Hk Hr]. intros [= <- <-]. simpl.
  split_and!; [done | lia | intros H; specialize (Hlt H); lia | done].
Qed.

(** X5. [BIDSLoader.__init__] asks the default schema for its two
    mappings before it looks at the root.  With a root that does not
    exist the construction always raises, either
    [FileNotFoundError] naming the root or the [AttributeError] of a
    schema document that is no mapping; the default schema has been
    built all the same, and from a process without one at least one
    request has been made. *)
Theorem X5_missing_root_raises_after_schema
    (net : nat -> string -> fetch_outcome) (fs : filesystem)
    (root : string) (p : process) :
  path_exists fs root = false ->
  exists e p',
    BIDSLoader_init net fs root p = (Raise e, p')
    /\ (e = FileNotFoundError ("BIDS root does not exist: " +:+ root)
        \/ exists msg, e = AttributeError msg)
    /\ default_schema p' <> None
    /\ (default_schema p = None -> requests_made p < requests_made p').
Proof.
  intros Hroot. unfold BIDSLoader_init, bind.
  destruct (on_default_schema net (get_entity_mapping net) p)
    as [r1 p1] eqn:E1.
  apply (on_default_schema_outcome net _ _ _ _
           (get_entity_mapping_outcome net)) in E1
    as (Hs1 & Hle1 & Hlt1 & Hr1).
  destruct r1 as [m|e1].
  - destruct (on_default_schema net (get_entity_display_names net) p1)
      as [r2 p2] eqn:E2.
    apply (on_default_schema_outcome net _ _ _ _
             (get_entity_display_names_outcome net)) in E2
      as (Hs2 & Hle2 & _ & Hr2).
    destruct r2 as [dn|e2].
    + rewrite Hroot. unfold raise. eexists _, _.
      split_and!; [reflexivity | by left | done |].
      intros H. specialize (Hlt1 H). lia.
    + eexists _, _. split_and!; [reflexivity | right; by apply Hr2 | done |].
      intros H. specialize (Hlt1 H). lia.
  - eexists _, _. split_and!; [reflexivity | right; by apply Hr1 | done |].
    intros H. by apply Hlt1.
Qed.

Lemma X5_witness :
  exists e p',
    BIDSLoader_init dead_net
      (mkFilesystem (fun _ => []) (fun _ => None) (fun _ => None)
                    (fun _ => false))
      "/nowhere" (mkProcess None 0)
    = (Raise e, p')
    /\ default_schema p' <> None.
Proof.
  destruct (X5_missing_root_raises_after_schema dead_net
              (mkFilesystem (fun _ => []) (fun _ => None) (fun _ => None)
                            (fun _ => false))
              "/nowhere" (mkProcess None 0) eq_refl)
    as (e & p' & H & _ & Hs & _).
  exists e, p'. split; [exact H | exact Hs].
Defined.

(** ** approach3_table_function.py: the scanners *)

Lemma length_scan_tsv_files fs self pattern b :
  List.length (scan_tsv_files fs self b pattern)
  = list_sum (map (fun p => match (if plain_text p then read_csv fs p
                                   else None) with
                            | Some t => List.length (rows t)
                            | None => 0
                            end)
                  (matched_files fs self pattern)).
Proof.
  unfold scan_tsv_files, matched_files.
  induction (glob_paths fs (join_path (bids_root self) pattern))
    as [|p paths IH]; simpl; [done|].
  rewrite length_app, IH. f_equal.
  destruct (if plain_text p then read_csv fs p else None);
    [apply length_map | done].
Qed.

(** X7. The scanner [scan_tsv_files] passes over a matched file the
    engine cannot read and goes on with the others: the number of rows
    it yields is the total of the rows of the matched files that are
    read (the paths being without apostrophe, so that each read
    statement is the one meant). *)
Theorem X7_host_lazy_skips_unreadable_files
    (fs : filesystem) (self : BIDSLoader) (pattern : string) (b : bool) :
  (forall p, In p (matched_files fs self pattern) -> plain_text p = true) ->
  List.length (scan_tsv_files fs self b pattern)
  = list_sum (map (fun p => match read_csv fs p with
                            | Some file => List.length (rows file)
                            | None => 0
                            end)
                  (matched_files fs self pattern)).
Proof.
  intros Hplain. rewrite length_scan_tsv_files. f_equal.
  apply map_ext_in. intros p Hp. by rewrite (Hplain p Hp).
Qed.

Lemma X7_witness :
  List.length (scan_tsv_files one_unreadable fallback_loader true "**/*.tsv")
  = 2.
Proof.
  rewrite (X7_host_lazy_skips_unreadable_files one_unreadable fallback_loader
             "**/*.tsv" true); [reflexivity|].
  intros p Hp. vm_compute in Hp.
  destruct Hp as [<-|[<-|[]]]; reflexivity.
Defined.

Lemma dict_keys_text_values (d : dict string) :
  dict_keys (text_values d) = dict_keys d.
Proof.
  unfold dict_keys, text_values. rewrite map_map. apply map_ext.
  by intros [k v].
Qed.

Lemma file_info_NoDup p e : List.NoDup (dict_keys (file_info p e)).
Proof.
  unfold file_info. apply dict_update_NoDup. simpl.
  constructor; [|constructor; [|constructor]]; simpl; [|tauto].
  intros [H|[]]. discriminate.
Qed.

Lemma file_info_get p e c :
  List.NoDup (dict_keys e) ->
  dict_get c (file_info p e)
  = match dict_get c e with
    | Some v => Some v
    | None => dict_get c [("filepath", p); ("filename", path_name p)]
    end.
Proof. intros H. unfold file_info. by apply dict_get_update. Qed.

Lemma scan_row_get p e cols row c :
  List.NoDup (dict_keys e) ->
  dict_get c (dict_update (zip_dict cols row) (text_values (file_info p e)))
  = match dict_get c e with
    | Some v => Some (Some v)
    | None =>
        match dict_get c [("filepath", p); ("filename", path_name p)] with
        | Some v => Some (Some v)
        | None => dict_get c (zip_dict cols row)
        end
    end.
Proof.
  intros He. rewrite dict_get_update.
  - rewrite dict_get_text_values, (file_info_get p e c He).
    destruct (dict_get c e); [done|].
    by destruct (dict_get c [("filepath", p); ("filename", path_name p)]).
  - rewrite dict_keys_text_values. apply file_info_NoDup.
Qed.



(** ** approach2_python.py *)




Lemma file_info_path (self : BIDSLoader) (b : bool) (p : string) :
  ~ In "filepath" (entity_columns self b) ->
  dict_get_default "filepath" "" (file_info p (file_entities self b p)) = p.
Proof.
  intros H. unfold dict_get_default.
  rewrite file_info_filepath; [done | apply file_entities_NoDup |].
  intros Hin. by apply H, (file_entities_keys self b p).
Qed.



(** X14. The scanner [scan_json_files] yields one row for each
    matched file, in the order of the glob, with the path and the
    content of the file; a file whose content cannot be read or parsed
    is not passed over, its content is the text of an empty object
    (when no entity column is named [filepath] or [json_content]). *)
Theorem X14_host_lazy_json_one_row_per_file
    (fs : filesystem) (self : BIDSLoader) (pattern : string) (b : bool) :
  ~ In "filepath" (entity_columns self b) ->
  ~ In "json_content" (entity_columns self b) ->
  map (fun r => (cell "filepath" r, cell "json_content" r))
      (scan_json_files fs self b pattern)
  = map (fun p => (Some p, Some (default "{}" (read_json fs p))))
        (matched_files fs self pattern).
Proof.
  intros Hfp Hjc. unfold scan_json_files, matched_files.
  rewrite map_map. apply map_ext. intros p. unfold cell.
  rewrite !dict_get_text_values,
    !dict_get_update by apply file_entities_NoDup.
  assert (Hn : forall c, ~ In c (entity_columns self b) ->
               dict_get c (file_entities self b p) = None).
  { intros c Hc. apply dict_get_None_keys. intros Hk. apply Hc.
    by apply (file_entities_keys self b p). }
  by rewrite (Hn _ Hfp), (Hn _ Hjc).
Qed.

Lemma X14_witness :
  map (fun r => (cell "filepath" r, cell "json_content" r))
      (scan_json_files sidecars_fs fallback_loader true "**/*.json")
  = [(Some "/data/sub-01_task-rest_bold.json", Some "[1, 2]");
     (Some "/data/sub-02_task-rest_bold.json", Some "{}")].
Proof.
  apply (X14_host_lazy_json_one_row_per_file sidecars_fs fallback_loader
           "**/*.json" true).
  - vm_compute. intuition discriminate.
  - vm_compute. intuition discriminate.
Defined.


(** ** base.py: the entities of a file *)

Lemma no_hyphen_app (a b : string) :
  no_hyphen (a +:+ b) = no_hyphen a && no_hyphen b.
Proof.
  induction a as [|c a IH]; simpl; [done|].
  rewrite <- andb_assoc. f_equal. exact IH.
Qed.

Lemma match_at_no_hyphen (s : string) :
  no_hyphen s = true -> match_at s = None.
Proof.
  intros H. unfold match_at.
  destruct (span_alnum s) as [k t] eqn:E.
  apply span_alnum_spec in E as (-> & _ & _).
  rewrite no_hyphen_app in H. apply andb_true_iff in H as [_ Ht].
  destruct k as [|a k]; [done|]. destruct t as [|c t]; [done|].
  simpl in Ht. apply andb_true_iff in Ht as [Hc _].
  apply negb_true_iff in Hc.
  destruct (Ascii.eqb_spec c "-"%char) as [->|Hne]; [done|].
  destruct c as [[] [] [] [] [] [] [] []]; try done.
Qed.

Lemma finditer_fuel_no_hyphen (n : nat) (s : string) :
  no_hyphen s = true -> finditer_fuel n s = [].
Proof.
  revert s. induction n as [|n IH]; intros s H; simpl; [done|].
  rewrite match_at_no_hyphen by done.
  destruct s as [|c s]; [done|]. apply IH.
  simpl in H. by apply andb_true_iff in H as [_ H].
Qed.

(** X15. A file whose name has no hyphen has no entity, whatever its
    directories are called and whatever the schema knows: both
    [parse_bids_entities] and the mapping the host variants attach to
    the file are empty. *)
Theorem X15_no_hyphen_no_entity (self : BIDSLoader) (b : bool) (p : string) :
  no_hyphen (path_name p) = true ->
  parse_bids_entities self p = [] /\ file_entities self b p = [].
Proof.
  intros H.
  assert (Hp : parse_bids_entities self p = []).
  { rewrite parse_bids_entities_tokens. unfold finditer.
    by rewrite finditer_fuel_no_hyphen. }
  split; [done|]. unfold file_entities. rewrite Hp. by destruct b.
Qed.

Lemma X15_witness :
  parse_bids_entities fallback_loader "/data/sub-01/ses-pre/participants.tsv"
  = []
  /\ file_entities fallback_loader true "/data/sub-01/ses-pre/participants.tsv"
     = [].
Proof.
  apply (X15_no_hyphen_no_entity fallback_loader true
           "/data/sub-01/ses-pre/participants.tsv").
  vm_compute. reflexivity.
Defined.

Lemma to_full_names_get self (e : dict string) k v :
  List.NoDup (dict_keys e) ->
  dict_get k e = Some v ->
  (forall k', In k' (dict_keys e) ->
     get_entity_full_name self k' = get_entity_full_name self k -> k' = k) ->
  dict_get (get_entity_full_name self k) (to_full_names self e) = Some v.
Proof.
  induction e as [|[k0 v0] e IH] using rev_ind; [done|].
  rewrite dict_keys_app, to_full_names_snoc, dict_get_app. simpl.
  intros Hnd Hget Hinj.
  apply NoDup_ListNoDup, NoDup_app in Hnd as (Hnd & Hfresh & _).
  apply NoDup_ListNoDup in Hnd.
  destruct (dict_get k e) as [v'|] eqn:E.
  - injection Hget as ->.
    assert (Hk : In k (dict_keys e)).
    { destruct (in_dec string_dec k (dict_keys e)) as [|Hn]; [done|].
      apply dict_get_None_keys in Hn. congruence. }
    assert (Hne : k0 <> k).
    { intros ->. apply (Hfresh k); [by apply list_elem_of_In|].
      by apply list_elem_of_singleton. }
    rewrite dict_get_set_ne.
    + apply IH; [done | done |]. intros k' Hk'. apply Hinj.
      apply in_app_iff. by left.
    + intros Heq. apply Hne. apply Hinj; [|done].
      apply in_app_iff. right. by left.
  - destruct (String.eqb k k0) eqn:Ek; [|done].
    apply String.eqb_eq in Ek. subst k0. injection Hget as ->.
    apply dict_get_set_eq.
Qed.

(** X16. Renaming to full names keeps the value of an entity: the
    value [parse_bids_entities] found for a short name is the value of
    the column with its full name, provided no other short name found
    in the same file name has the same full name (with two such, the
    dictionary comprehension keeps one value only). *)
Theorem X16_full_names_keep_values
    (self : BIDSLoader) (p k v : string) :
  dict_get k (parse_bids_entities self p) = Some v ->
  (forall k', In k' (dict_keys (parse_bids_entities self p)) ->
     get_entity_full_name self k' = get_entity_full_name self k -> k' = k) ->
  dict_get (get_entity_column_name self k true) (file_entities self true p)
  = Some v.
Proof.
  intros Hget Hinj. unfold file_entities, get_entity_column_name.
  apply to_full_names_get; [|done|done].
  rewrite parse_bids_entities_tokens. apply parse_tokens_NoDup.
Qed.

Lemma X16_witness :
  dict_get (get_entity_column_name fallback_loader "ses" true)
    (file_entities fallback_loader true
       "/data/sub-01/ses-pre/func/sub-01_ses-pre_task-rest_events.tsv")
  = Some "pre".
Proof.
  apply (X16_full_names_keep_values fallback_loader
           "/data/sub-01/ses-pre/func/sub-01_ses-pre_task-rest_events.tsv"
           "ses" "pre").
  - vm_compute. reflexivity.
  - vm_compute. intros k' H.
    destruct H as [<-|[<-|[<-|[]]]]; intros Hf; try reflexivity;
      discriminate Hf.
Defined.


(** ** The rows of the relations *)

Lemma file_entities_absent self b p c :
  ~ In c (entity_columns self b) -> dict_get c (file_entities self b p) = None.
Proof.
  intros Hc. apply dict_get_None_keys. intros Hk. apply Hc.
  by apply (file_entities_keys self b p).
Qed.

Lemma scanned_cells fs self b p file row c :
  read_csv fs p = Some file ->
  c <> "filepath" -> c <> "filename" ->
  ~ In "filepath" (entity_columns self b) ->
  ~ In c (columns (read_table fs p)) ->
  let r := dict_update (zip_dict (columns file) row)
             (text_values (file_info p (file_entities self b p))) in
  (cell "filepath" r, cell c r) = (Some p, dict_get c (file_entities self b p)).
Proof.
  intros Hread H1 H2 Hfree Hc r. unfold read_table in Hc. rewrite Hread in Hc.
  simpl in Hc. unfold r, cell.
  rewrite !scan_row_get by apply file_entities_NoDup.
  rewrite (file_entities_absent self b p "filepath" Hfree). simpl.
  destruct (dict_get c (file_entities self b p)); [done|]. simpl.
  apply String.eqb_neq in H1, H2. rewrite H1, H2.
  by rewrite zip_dict_notin.
Qed.

(** X17. What the scanner [scan_tsv_files] yields for a column [c]
    that no matched file has of its own: for each matched file in the
    order of the glob, and for each row read from it, a row with the
    path of the file under [filepath] and, under [c], the value the
    file name gives for [c], nothing when it gives none (when the
    paths have no apostrophe and no entity column is named
    [filepath]); a file that is not read gives no row. *)
Theorem X17_host_lazy_rows
    (fs : filesystem) (self : BIDSLoader) (pattern : string) (b : bool)
    (c : string) :
  c <> "filepath" -> c <> "filename" ->
  ~ In "filepath" (entity_columns self b) ->
  (forall p, In p (matched_files fs self pattern) ->
     plain_text p = true /\ ~ In c (columns (read_table fs p))) ->
  map (fun r => (cell "filepath" r, cell c r))
      (scan_tsv_files fs self b pattern)
  = per_file_rows fs (matched_files fs self pattern)
      (fun p => dict_get c (file_entities self b p)).
Proof.
  intros H1 H2 Hfree Hc. unfold scan_tsv_files, per_file_rows.
  fold (matched_files fs self pattern). rewrite map_flat_map_comm.
  apply flat_map_eq_in. intros p Hp. destruct (Hc p Hp) as [Hplain Hcp].
  rewrite Hplain. destruct (read_csv fs p) as [file|] eqn:E.
  - unfold read_table at 1. rewrite E. simpl. rewrite map_map.
    apply map_ext. intros row.
    exact (scanned_cells fs self b p file row c E H1 H2 Hfree Hcp).
  - unfold read_table. by rewrite E.
Qed.

Lemma X17_witness :
  map (fun r => (cell "filepath" r, cell "session" r))
      (scan_tsv_files session_in_names fallback_loader true "**/*.tsv")
  = per_file_rows session_in_names
      (matched_files session_in_names fallback_loader "**/*.tsv")
      (fun p => dict_get "session" (file_entities fallback_loader true p)).
Proof.
  apply (X17_host_lazy_rows session_in_names fallback_loader "**/*.tsv" true
           "session"); try done.
  - vm_compute. intuition discriminate.
  - intros p Hp. vm_compute in Hp.
    destruct Hp as [<-|[<-|[]]]; (split; [reflexivity|]);
      vm_compute; intuition discriminate.
Defined.

Lemma map_res_all_ok {A B} (f : A -> res B) (g : A -> B) (l : list A) :
  (forall x, In x l -> f x = Ok (g x)) -> map_res f l = Ok (map g l).
Proof.
  induction l as [|a l IH]; intros H; simpl; [done|].
  rewrite (H a) by (by left). rewrite IH; [done|].
  intros x Hx. apply H. by right.
Qed.

Lemma flat_map_map_comm {A B C} (f : B -> list C) (g : A -> B) (l : list A) :
  flat_map f (map g l) = flat_map (fun x => f (g x)) l.
Proof. induction l as [|a l IH]; simpl; [done | by rewrite IH]. Qed.


(** *** The texts a host-eager statement pastes *)

Lemma append_assoc3 (a b c : string) : (a +:+ b) +:+ c = a +:+ (b +:+ c).
Proof.
  induction a as [|x a IH]; [done|].
  change (String x ((a +:+ b) +:+ c) = String x (a +:+ (b +:+ c))).
  by rewrite IH.
Qed.

Lemma scan_token_in s toks k v :
  scan s toks -> In (k, v) toks ->
  exists a u, s = a +:+ (k +:+ "-" +:+ v +:+ u)
              /\ v <> "" /\ all_alnum v = true.
Proof.
  induction 1 as [|s k0 v0 u0 toks Htok _ IH|c s toks _ _ IH]; intros Hin.
  - done.
  - destruct Hin as [[= -> ->]|Hin].
    + destruct Htok as (-> & _ & Hv & _ & Hav & _).
      exists "", u0. by split_and!.
    + destruct (IH Hin) as (a & u & -> & Hv & Hav).
      destruct Htok as (-> & _). 
      exists (k0 +:+ "-" +:+ v0 +:+ a), u. split_and!; [|done..].
      by rewrite !append_assoc3.
  - destruct (IH Hin) as (a & u & -> & Hv & Hav).
    exists (String c a), u. by split_and!.
Qed.

Lemma parse_tokens_In known toks k v :
  dict_get k (parse_tokens known toks) = Some v -> In (k, v) toks.
Proof.
  induction toks as [|[k0 v0] toks IH] using rev_ind; [done|].
  rewrite parse_tokens_snoc, in_app_iff.
  destruct (dict_mem k0 known); [|by left; apply IH].
  destruct (string_dec k0 k) as [->|Hne].
  - rewrite dict_get_set_eq. intros [= ->]. right. by left.
  - rewrite dict_get_set_ne by done. intros H. left. by apply IH.
Qed.


Lemma alnum_plain (v : string) : all_alnum v = true -> plain_text v = true.
Proof.
  induction v as [|c v IH]; [done|]. simpl. intros H.
  apply andb_true_iff in H as [Hc Hv]. rewrite (IH Hv), andb_true_r.
  destruct (Ascii.eqb_spec c "'"%char) as [->|Hne]; [|done].
  vm_compute in Hc. discriminate.
Qed.

Lemma dict_set_In {V} (k k0 : string) (v v0 : V) (d : dict V) :
  In (k, v) (dict_set k0 v0 d) -> (k, v) = (k0, v0) \/ In (k, v) d.
Proof.
  induction d as [|[k1 v1] d IH]; simpl.
  - intros [H|[]]. left. by symmetry.
  - destruct (String.eqb k0 k1) eqn:E; simpl.
    + apply String.eqb_eq in E. subst k1.
      intros [H|H]; [left; by symmetry | right; by right].
    + intros [H|H]; [right; by left|].
      destruct (IH H) as [?|?]; [by left | right; by right].
Qed.

Lemma dict_update_In {V} (k : string) (v : V) (d e : dict V) :
  In (k, v) (dict_update d e) -> In (k, v) d \/ In (k, v) e.
Proof.
  induction e as [|[k0 v0] e IH] using rev_ind; [by left|].
  rewrite dict_update_snoc. intros H. apply dict_set_In in H as [H|H].
  - right. apply in_app_iff. right. left. by symmetry.
  - destruct (IH H) as [?|?]; [by left|]. right. apply in_app_iff. by left.
Qed.

Lemma parse_tokens_value known toks k v :
  In (k, v) (parse_tokens known toks) -> In (k, v) toks.
Proof.
  induction toks as [|[k0 v0] toks IH] using rev_ind; [done|].
  rewrite parse_tokens_snoc, in_app_iff.
  destruct (dict_mem k0 known); [|by left; apply IH].
  intros H. apply dict_set_In in H as [->|H]; [right; by left|].
  left. by apply IH.
Qed.

Lemma to_full_names_value self e c v :
  In (c, v) (to_full_names self e) -> exists k, In (k, v) e.
Proof.
  induction e as [|[k0 v0] e IH] using rev_ind; [done|].
  rewrite to_full_names_snoc. intros H. apply dict_set_In in H as [H|H].
  - injection H as -> ->. exists k0. apply in_app_iff. right. by left.
  - destruct (IH H) as [k Hk]. exists k. apply in_app_iff. by left.
Qed.

Lemma file_entities_values self b p c v :
  In (c, v) (file_entities self b p) -> plain_text v = true.
Proof.
  intros H. apply alnum_plain.
  assert (Hk : exists k, In (k, v) (finditer (path_name p))).
  { unfold file_entities in H. rewrite parse_bids_entities_tokens in H.
    destruct b.
    - apply to_full_names_value in H as [k H]. exists k.
      by apply parse_tokens_value in H.
    - exists c. by apply parse_tokens_value in H. }
  destruct Hk as [k Hk].
  by destruct (scan_token_in _ _ k v (finditer_scan (path_name p)) Hk)
    as (a & u & _ & _ & Hav).
Qed.

Lemma split_slash_plain (s : string) :
  plain_text s = true ->
  forall x, In x (split_slash s) -> plain_text x = true.
Proof.
  induction s as [|c s IH]; simpl.
  - intros _ x [<-|[]]. done.
  - intros H. apply andb_true_iff in H as [Hc Hs]. specialize (IH Hs).
    destruct (Ascii.eqb c "/"%char).
    + intros x [<-|Hx]; [done | by apply IH].
    + destruct (split_slash s) as [|q qs].
      * intros x [<-|[]]. simpl. by rewrite Hc.
      * intros x [<-|Hx].
        -- simpl. rewrite Hc. apply IH. by left.
        -- apply IH. by right.
Qed.

Lemma last_in_or_default {A} (l : list A) (d : A) :
  List.last l d = d \/ In (List.last l d) l.
Proof.
  induction l as [|a l IH]; [by left|]. destruct l as [|a' l'].
  - right. by left.
  - destruct IH as [IH|IH].
    + change (List.last (a :: a' :: l') d) with (List.last (a' :: l') d).
      rewrite IH. by left.
    + right. right. exact IH.
Qed.

Lemma path_name_plain (p : string) :
  plain_text p = true -> plain_text (path_name p) = true.
Proof.
  intros H. unfold path_name.
  destruct (last_in_or_default
              (List.filter is_component (split_slash p)) "") as [->|Hin];
    [done|].
  apply filter_In in Hin as [Hin _]. by apply (split_slash_plain p H).
Qed.

Lemma union_part_text_ok (self : BIDSLoader) b p :
  ~ In "filepath" (entity_columns self b) ->
  ~ In "filename" (entity_columns self b) ->
  plain_text p = true ->
  (forall c, In c (entity_columns self b) -> plain_label c = true) ->
  select_text_ok (union_part (file_info p (file_entities self b p))) = true.
Proof.
  intros Hfp Hfn Hp Hlabels.
  assert (Hkfp : ~ In "filepath" (dict_keys (file_entities self b p))).
  { intros H. by apply Hfp, (file_entities_keys self b p). }
  assert (Hkfn : ~ In "filename" (dict_keys (file_entities self b p))).
  { intros H. by apply Hfn, (file_entities_keys self b p). }
  unfold select_text_ok, union_part. cbn [from items source_text_ok].
  rewrite file_info_path by done. rewrite Hp. cbn [andb].
  rewrite entity_cols_items. cbn [app forallb item_text_ok].
  rewrite Hp.
  assert (Hname : dict_get_default "filename" ""
                    (file_info p (file_entities self b p)) = path_name p).
  { unfold dict_get_default, file_info.
    rewrite dict_get_update by apply file_entities_NoDup.
    apply dict_get_None_keys in Hkfn. by rewrite Hkfn. }
  rewrite Hname, (path_name_plain p Hp).
  change (plain_label "filepath") with true.
  change (plain_label "filename") with true. cbn [andb].
  rewrite forallb_app. cbn [forallb item_text_ok]. rewrite andb_true_r.
  apply forallb_forall. intros it Hit.
  apply in_map_iff in Hit as ([k v] & <- & Hkv). cbn [fst snd item_text_ok].
  unfold entity_items in Hkv. apply filter_In in Hkv as [Hkv Hkeep].
  simpl in Hkeep. unfold file_info in Hkv.
  apply dict_update_In in Hkv as [Hkv|Hkv].
  - destruct Hkv as [[= <- <-]|[[= <- <-]|[]]]; simpl in Hkeep; done.
  - rewrite (file_entities_values self b p k v Hkv). cbn [andb].
    apply Hlabels, (file_entities_keys self b p).
    apply in_map_iff. by exists (k, v).
Qed.
(** *** The host-eager relation *)

Lemma map_res_map {A B C} (f : B -> res C) (g : A -> B) (l : list A) :
  map_res f (map g l) = map_res (fun x => f (g x)) l.
Proof. induction l as [|a l IH]; simpl; [done | by rewrite IH]. Qed.

Lemma zip_with_map_same {A B C D} (f : B -> C -> D) (g : A -> B) (h : A -> C)
    (l : list A) :
  zip_with f (map g l) (map h l) = map (fun x => f (g x) (h x)) l.
Proof. induction l as [|a l IH]; simpl; [done | by rewrite IH]. Qed.

Lemma union_all_same_columns (ts : list table) (cols : list string) :
  ts <> [] -> (forall t, In t ts -> columns t = cols) ->
  union_all ts = Ok (mkTable cols (flat_map rows ts)).
Proof.
  destruct ts as [|t rest]; [done|]. intros _ H. unfold union_all.
  assert (Hall : forallb (fun u => List.length (columns u)
                                   =? List.length (columns t))%nat rest = true).
  { apply forallb_forall. intros u Hu. apply Nat.eqb_eq.
    rewrite (H u) by (by right). by rewrite (H t) by (by left). }
  rewrite Hall. by rewrite (H t) by (by left).
Qed.

Lemma python_relation_eq fs (self : BIDSLoader) pattern b cols :
  matched_files fs self pattern <> [] ->
  ~ In "filepath" (entity_columns self b) ->
  ~ In "filename" (entity_columns self b) ->
  (forall p, In p (matched_files fs self pattern) ->
     plain_text p = true /\ exists t, read_csv fs p = Some t) ->
  (forall c, In c (entity_columns self b) -> plain_label c = true) ->
  (forall p, In p (matched_files fs self pattern) ->
     columns (python_part (file_info p (file_entities self b p))
                          (read_table fs p)) = cols) ->
  distinct_names cols = true ->
  python_relation fs self pattern b
  = Ok (mkTable cols
          (flat_map
             (fun p => rows (python_part (file_info p (file_entities self b p))
                                         (read_table fs p)))
             (matched_files fs self pattern))).
Proof.
  unfold matched_files. intros Hne Hfree Hfn Hread Hlabels Hcols Hdist.
  unfold python_relation, loaded_relation, python_load_tsv_files.
  destruct (glob_paths fs (join_path (bids_root self) pattern))
    as [|p0 paths] eqn:G; [done|].
  set (l := p0 :: paths) in *.
  unfold bind, execute, eval_query.
  assert (Htext : statement_text_ok
                    (map union_part
                       (map (fun tsv_path =>
                               file_info tsv_path
                                 (file_entities self b tsv_path)) l)) = true).
  { unfold statement_text_ok. apply forallb_forall. intros sel Hsel.
    apply in_map_iff in Hsel as (info & <- & Hinfo).
    apply in_map_iff in Hinfo as (p & <- & Hp).
    apply union_part_text_ok; try done. by destruct (Hread p Hp). }
  rewrite Htext.
  rewrite (eval_union_parts fs connect _ (map (read_table fs) l)).
  - rewrite zip_with_map_same.
    rewrite (union_all_same_columns _ cols).
    + unfold count_rows, read_relation. simpl. rewrite lookup_insert_eq.
      simpl. rewrite lookup_insert_eq.
      by rewrite dedup_names_distinct, flat_map_map_comm.
    + done.
    + intros t Ht. apply in_map_iff in Ht as (p & <- & Hp). by apply Hcols.
  - rewrite map_res_map. apply map_res_all_ok. intros p Hp.
    rewrite file_info_path by done. destruct (Hread p Hp) as [_ [t Ht]].
    unfold read_csv_or_raise, read_table. by rewrite Ht.
Qed.

Lemma python_part_columns (self : BIDSLoader) b p t :
  ~ In "filepath" (entity_columns self b) ->
  ~ In "filename" (entity_columns self b) ->
  columns (python_part (file_info p (file_entities self b p)) t)
  = "filepath" :: "filename"
      :: dict_keys (file_entities self b p) ++ columns t.
Proof.
  intros Hfp Hfn. unfold python_part. cbn [columns app].
  rewrite entity_items_keys; [done | apply file_entities_NoDup | |].
  - intros H. by apply Hfp, (file_entities_keys self b p).
  - intros H. by apply Hfn, (file_entities_keys self b p).
Qed.

Lemma python_cells (self : BIDSLoader) b p (t : table) (row : list value) c :
  ~ In "filepath" (entity_columns self b) ->
  ~ In "filename" (entity_columns self b) ->
  c <> "filepath" -> c <> "filename" ->
  ~ In c (columns t) ->
  let info := file_info p (file_entities self b p) in
  let named :=
    combine (columns (python_part info t))
            (([Some (dict_get_default "filepath" "" info);
               Some (dict_get_default "filename" "" info)]
              ++ map (fun kv => Some (snd kv)) (entity_items info)) ++ row) in
  (cell "filepath" named, cell c named)
  = (Some p, dict_get c (file_entities self b p)).
Proof.
  intros Hfp Hfn H1 H2 Hc info named.
  assert (Hkfp : ~ In "filepath" (dict_keys (file_entities self b p))).
  { intros H. by apply Hfp, (file_entities_keys self b p). }
  assert (Hkfn : ~ In "filename" (dict_keys (file_entities self b p))).
  { intros H. by apply Hfn, (file_entities_keys self b p). }
  unfold named, python_part. cbn [columns app combine].
  unfold cell at 1. cbn [dict_get String.eqb Ascii.eqb Bool.eqb].
  unfold info at 1. rewrite file_info_path by done. f_equal.
  unfold cell. cbn [dict_get].
  apply String.eqb_neq in H1, H2. rewrite H1, H2.
  rewrite combine_app_eq
    by (unfold dict_keys; by rewrite !length_map).
  rewrite dict_get_app, combine_keys_values, dict_get_text_values.
  unfold info.
  rewrite entity_items_get
    by (first [apply file_entities_NoDup | done
              | by apply String.eqb_neq]).
  destruct (dict_get c (file_entities self b p)); [done|]. simpl.
  by rewrite dict_get_combine_notin.
Qed.

Lemma host_eager_observe fs (self : BIDSLoader) pattern b c cols :
  ~ In "filepath" (entity_columns self b) ->
  ~ In "filename" (entity_columns self b) ->
  c <> "filepath" -> c <> "filename" ->
  (forall p, In p (matched_files fs self pattern) ->
     ~ In c (columns (read_table fs p))) ->
  (forall p, In p (matched_files fs self pattern) ->
     columns (python_part (file_info p (file_entities self b p))
                          (read_table fs p)) = cols) ->
  observe "filepath" c
    (mkTable cols
       (flat_map
          (fun p => rows (python_part (file_info p (file_entities self b p))
                                      (read_table fs p)))
          (matched_files fs self pattern)))
  = per_file_rows fs (matched_files fs self pattern)
      (fun p => dict_get c (file_entities self b p)).
Proof.
  intros Hfp Hfn H1 H2 Hc Hcols.
  unfold observe, named_rows. cbn [rows columns].
  rewrite !map_flat_map_comm. unfold per_file_rows.
  apply flat_map_eq_in. intros p Hp.
  rewrite <- (Hcols p Hp). unfold python_part at 2. cbn [rows].
  rewrite !map_map. apply map_ext. intros row.
  by apply (python_cells self b p (read_table fs p) row c Hfp Hfn H1 H2),
           Hc.
Qed.

Lemma host_eager_columns fs (self : BIDSLoader) pattern b p0 :
  In p0 (matched_files fs self pattern) ->
  (forall p q, In p (matched_files fs self pattern) ->
     In q (matched_files fs self pattern) ->
     columns (read_table fs p) = columns (read_table fs q)
     /\ dict_keys (file_entities self b p) = dict_keys (file_entities self b q)) ->
  ~ In "filepath" (entity_columns self b) ->
  ~ In "filename" (entity_columns self b) ->
  forall p, In p (matched_files fs self pattern) ->
    columns (python_part (file_info p (file_entities self b p))
                         (read_table fs p))
    = columns (python_part (file_info p0 (file_entities self b p0))
                           (read_table fs p0)).
Proof.
  intros Hp0 Hsame Hfp Hfn p Hp. rewrite !python_part_columns by done.
  destruct (Hsame p p0 Hp Hp0) as [-> ->]. done.
Qed.


Lemma name_in_In (c : string) (l : list string) :
  In c l -> name_in c l = true.
Proof.
  intros H. unfold name_in. apply existsb_exists. exists c.
  split; [done|]. unfold same_name. apply String.eqb_refl.
Qed.

Lemma distinct_names_apart (a b : list string) (c : string) :
  distinct_names (a ++ b) = true -> In c a -> ~ In c b.
Proof.
  induction a as [|x a IH]; [done|]. simpl. intros H.
  apply andb_true_iff in H as [Hx Hd]. apply negb_true_iff in Hx.
  intros [->|Hc] Hb.
  - rewrite name_in_In in Hx; [done|]. apply in_app_iff. by right.
  - by apply (IH Hd Hc).
Qed.

(** X19. What the host-eager relation shows of an entity [c] that
    the matched files name, when every matched file is read, the files
    have the same columns and name the same entities, the statement is
    the one meant (no apostrophe in a path, the entity columns plain
    names) and its columns are distinct: each row of each file gives
    the path of its file under [filepath] and, under [c], the value
    the name of that file gives for [c]. *)
Theorem X19_host_eager_rows
    (fs : filesystem) (self : BIDSLoader) (pattern : string) (b : bool)
    (c : string) :
  matched_files fs self pattern <> [] ->
  (forall p, In p (matched_files fs self pattern) ->
     plain_text p = true /\ exists t, read_csv fs p = Some t) ->
  (forall p q, In p (matched_files fs self pattern) ->
     In q (matched_files fs self pattern) ->
     columns (read_table fs p) = columns (read_table fs q)
     /\ dict_keys (file_entities self b p) = dict_keys (file_entities self b q)) ->
  ~ In "filepath" (entity_columns self b) ->
  ~ In "filename" (entity_columns self b) ->
  (forall c', In c' (entity_columns self b) -> plain_label c' = true) ->
  (forall p, In p (matched_files fs self pattern) ->
     distinct_names ("filepath" :: "filename"
                       :: dict_keys (file_entities self b p)
                          ++ columns (read_table fs p)) = true
     /\ In c (dict_keys (file_entities self b p))) ->
  exists t,
    python_relation fs self pattern b = Ok t
    /\ In c (columns t)
    /\ observe "filepath" c t
       = per_file_rows fs (matched_files fs self pattern)
           (fun p => dict_get c (file_entities self b p)).
Proof.
  intros Hne Hread Hsame Hfp Hfn Hlabels Hcol.
  destruct (matched_files fs self pattern) as [|p0 paths] eqn:G; [done|].
  rewrite <- G in *.
  assert (Hp0 : In p0 (matched_files fs self pattern))
    by (rewrite G; by left).
  pose proof (host_eager_columns fs self pattern b p0 Hp0 Hsame Hfp Hfn)
    as Hcols.
  assert (Hc : In c (entity_columns self b)).
  { destruct (Hcol p0 Hp0) as [_ Hk]. by apply (file_entities_keys self b p0). }
  assert (Hc1 : c <> "filepath") by (intros ->; done).
  assert (Hc2 : c <> "filename") by (intros ->; done).
  assert (Hnative : forall p, In p (matched_files fs self pattern) ->
            ~ In c (columns (read_table fs p))).
  { intros p Hp. destruct (Hcol p Hp) as [Hd Hk].
    simpl in Hd. apply andb_true_iff in Hd as [_ Hd].
    apply andb_true_iff in Hd as [_ Hd].
    by apply (distinct_names_apart _ _ c Hd). }
  assert (Hdist : distinct_names
            (columns (python_part (file_info p0 (file_entities self b p0))
                                  (read_table fs p0))) = true).
  { rewrite python_part_columns by done. by destruct (Hcol p0 Hp0). }
  rewrite (python_relation_eq fs self pattern b _ Hne Hfp Hfn Hread Hlabels
             Hcols Hdist).
  eexists. split_and!; [reflexivity| |by apply host_eager_observe].
  cbn [columns]. rewrite python_part_columns by done.
  right. right. apply in_app_iff. left. by destruct (Hcol p0 Hp0).
Qed.

Lemma X19_witness :
  exists t,
    python_relation session_in_names fallback_loader "**/*.tsv" true = Ok t
    /\ In "session" (columns t)
    /\ observe "filepath" "session" t
       = per_file_rows session_in_names
           (matched_files session_in_names fallback_loader "**/*.tsv")
           (fun p => dict_get "session" (file_entities fallback_loader true p)).
Proof.
  apply (X19_host_eager_rows session_in_names fallback_loader "**/*.tsv" true
           "session"); try done.
  - intros p Hp. vm_compute in Hp.
    destruct Hp as [<-|[<-|[]]]; (split; [reflexivity|]);
      eexists; reflexivity.
  - intros p q Hp Hq. vm_compute in Hp, Hq.
    destruct Hp as [<-|[<-|[]]]; destruct Hq as [<-|[<-|[]]];
      split; reflexivity.
  - vm_compute. intuition discriminate.
  - vm_compute. intuition discriminate.
  - intros c' Hc'. vm_compute in Hc'.
    repeat (destruct Hc' as [<-|Hc']; [reflexivity|]). destruct Hc'.
  - intros p Hp. vm_compute in Hp.
    destruct Hp as [<-|[<-|[]]]; (split; [reflexivity|]);
      vm_compute; tauto.
Defined.


(** ** The two extractions *)

Lemma extract_at_here short v u :
  v <> "" -> all_alnum v = true ->
  exists v', extract_at short (short +:+ "-" +:+ v +:+ u) = Some v'.
Proof.
  intros Hv Hav. unfold extract_at.
  rewrite <- (append_assoc3 short "-" (v +:+ u)), strip_prefix_app.
  destruct v as [|c v]; [done|]. simpl in *.
  apply andb_true_iff in Hav as [Hc _]. rewrite Hc.
  destruct (span_alnum (v +:+ u)). simpl. by eexists.
Qed.

Lemma extract_at_nonempty short s v : extract_at short s = Some v -> v <> "".
Proof.
  unfold extract_at. destruct (strip_prefix (short +:+ "-") s) as [t|]; [|done].
  destruct (fst (span_alnum t)); [done|]. by intros [= <-].
Qed.

Lemma regexp_search_nonempty short s v :
  regexp_search short s = Some v -> v <> "".
Proof.
  induction s as [|c s IH]; cbn [regexp_search].
  - destruct (extract_at short "") eqn:E; [|done].
    intros [= <-]. by apply (extract_at_nonempty short "").
  - destruct (extract_at short (String c s)) eqn:E; [|exact IH].
    intros [= <-]. by apply (extract_at_nonempty short (String c s)).
Qed.

Lemma regexp_search_occurrence short a v u :
  v <> "" -> all_alnum v = true ->
  exists v', regexp_search short (a +:+ (short +:+ "-" +:+ v +:+ u)) = Some v'.
Proof.
  intros Hv Hav. induction a as [|c a IH].
  - destruct (extract_at_here short v u Hv Hav) as [v' H].
    exists v'. change ("" +:+ (short +:+ "-" +:+ v +:+ u))
      with (short +:+ "-" +:+ v +:+ u).
    destruct (short +:+ "-" +:+ v +:+ u); simpl; by rewrite H.
  - change (String c a +:+ (short +:+ "-" +:+ v +:+ u))
      with (String c (a +:+ (short +:+ "-" +:+ v +:+ u))).
    cbn [regexp_search].
    destruct (extract_at short (String c (a +:+ (short +:+ "-" +:+ v +:+ u))));
      [by eexists | exact IH].
Qed.

(** X21. The engine-native extraction misses no entity the host
    finds: when [parse_bids_entities] gives a value for a short name
    in the name of a file, the pattern of the engine-native variant for
    that short name is found in the path of the file, be the file
    named alone or under a directory, and [regexp_extract] gives the
    text of its group, which is not empty.  (It need not be the same
    value: the pattern takes the leftmost place of the whole path.) *)
Theorem X21_engine_extraction_finds_host_entities
    (self : BIDSLoader) (dir name short v : string) :
  no_slash name = true -> is_component name = true ->
  dict_get short (parse_bids_entities self (dir +:+ "/" +:+ name)) = Some v ->
  exists v',
    regexp_search short (dir +:+ "/" +:+ name) = Some v'
    /\ regexp_extract short (dir +:+ "/" +:+ name) = v'
    /\ v' <> "".
Proof.
  intros Hs Hc Hget. rewrite parse_bids_entities_tokens in Hget.
  rewrite (path_name_join dir name Hs Hc) in Hget.
  apply parse_tokens_In in Hget.
  destruct (scan_token_in name (finditer name) short v (finditer_scan name) Hget)
    as (a & u & -> & Hv & Hav).
  replace (dir +:+ "/" +:+ a +:+ short +:+ "-" +:+ v +:+ u)
    with ((dir +:+ "/" +:+ a) +:+ (short +:+ "-" +:+ v +:+ u))
    by (by rewrite !append_assoc3).
  destruct (regexp_search_occurrence short (dir +:+ "/" +:+ a) v u Hv Hav)
    as [v' H].
  exists v'. split_and!; [exact H | unfold regexp_extract; by rewrite H |].
  by apply (regexp_search_nonempty short _ v' H).
Qed.

Lemma X21_witness :
  exists v',
    regexp_search "ses"
      ("/data/sub-02/ses-pre/func" +:+ "/" +:+ "sub-02_ses-post_task-rest_events.tsv")
    = Some v'
    /\ regexp_extract "ses"
         ("/data/sub-02/ses-pre/func" +:+ "/" +:+ "sub-02_ses-post_task-rest_events.tsv")
       = v'
    /\ v' <> "".
Proof.
  apply (X21_engine_extraction_finds_host_entities fallback_loader
           "/data/sub-02/ses-pre/func" "sub-02_ses-post_task-rest_events.tsv"
           "ses" "post"); vm_compute; reflexivity.
Defined.

(** ** Loading again *)

Lemma eval_query_reads_only fs con con' (q : list select) :
  (forall sel, In sel q ->
     match from sel with ScanFunction _ _ => False | _ => True end) ->
  eval_query fs con q = eval_query fs con' q.
Proof.
  intros H. unfold eval_query.
  assert (Hm : map_res (eval_select fs con) q = map_res (eval_select fs con') q).
  { induction q as [|sel q IH]; [done|]. simpl.
    assert (Hs : eval_select fs con sel = eval_select fs con' sel).
    { unfold eval_select. specialize (H sel (or_introl eq_refl)).
      by destruct (from sel). }
    rewrite Hs, IH; [done|]. intros s Hs'. apply H. by right. }
  by rewrite Hm.
Qed.

Lemma create_table_as_twice fs name (q : list select) con r con1 :
  (forall sel, In sel q ->
     match from sel with ScanFunction _ _ => False | _ => True end) ->
  (execute fs (CreateTableAs name q) ;;;
   count <- count_rows fs name ;; ret name) con = (r, con1) ->
  (execute fs (CreateTableAs name q) ;;;
   count <- count_rows fs name ;; ret name) con1 = (r, con1).
Proof.
  intros Hq. unfold bind, execute, count_rows, read_relation, ret.
  rewrite (eval_query_reads_only fs con1 con q Hq).
  destruct (eval_query fs con q) as [t|e] eqn:E.
  - simpl. rewrite !lookup_insert_eq. intros [= <- <-]. simpl.
    by rewrite insert_insert_eq.
  - by intros [= <- <-].
Qed.

(** X22. The engine-native and the host-eager [load_tsv_files] make
    their table with [CREATE OR REPLACE]: on an unchanged file system
    a second load gives the result of the first and leaves the
    connection as the first left it, be the result a table or an
    error; the rows are not added a second time. *)
Theorem X22_loading_again_changes_nothing
    (fs : filesystem) (self : BIDSLoader) (pattern : string) (b : bool)
    (con : engine) :
  (forall r con1,
     sql_load_tsv_files fs self pattern b con = (r, con1) ->
     sql_load_tsv_files fs self pattern b con1 = (r, con1))
  /\ (forall r con1,
        python_load_tsv_files fs self pattern b con = (r, con1) ->
        python_load_tsv_files fs self pattern b con1 = (r, con1)).
Proof.
  split; intros r con1.
  - unfold sql_load_tsv_files. apply create_table_as_twice.
    intros sel [<-|[]]. done.
  - unfold python_load_tsv_files.
    destruct (glob_paths fs (join_path (bids_root self) pattern))
      as [|p0 paths].
    + unfold bind, execute, ret. intros [= <- <-]. simpl.
      by rewrite insert_insert_eq.
    + apply create_table_as_twice. intros sel Hsel.
      apply in_map_iff in Hsel as (info & <- & _). done.
Qed.

(** ** The summary of a benchmark *)

Lemma min_positive_zeros (ts : list Z) :
  Forall (fun t => t = 0%Z) ts ->
  min_positive ts = Raise (ValueError "min() arg is an empty sequence").
Proof.
  intros H. unfold min_positive.
  assert (Hf : List.filter (fun t => (0 <? t)%Z) ts = []).
  { induction H as [|t ts -> _ IH]; simpl; [done | exact IH]. }
  by rewrite Hf.
Qed.

(** X23. [run_benchmark] raises whenever two approaches or more are
    asked for, the default three included: every entry of [run_all]
    has [load_time] 0, so in [_print_comparison_table] the minimum of
    the positive load times is taken of nothing and [ValueError]
    leaves [print_summary]; the results are not returned.  With one
    approach or none the comparison is not printed and the results of
    [run_all] are returned. *)
Theorem X23_run_benchmark_raises_on_comparison
    (net : nat -> string -> fetch_outcome) (fs : filesystem)
    (measure : loader_class -> BIDSLoader -> BenchmarkResult -> BenchmarkResult)
    (root : string) (approaches : option (list string)) (p : process) :
  let names := default ["sql"; "python"; "table_function"] approaches in
  if (1 <? List.length names)%nat
  then exists msg,
         run_benchmark net fs measure root approaches p
         = (Raise (ValueError msg), p)
  else exists results,
         run_benchmark net fs measure root approaches p = (Ok results, p)
         /\ run_all net fs measure root names p = (Ok results, p)
         /\ map approach_name results = names.
Proof.
  intros names. unfold run_benchmark. fold names. unfold bind.
  destruct (run_all_entries net fs measure root names p)
    as (results & Hrun & Hnames & Hall).
  rewrite Hrun. unfold lift_res, print_summary.
  assert (Hlen : List.length results = List.length names)
    by (by rewrite <- Hnames, length_map).
  rewrite Hlen. destruct (1 <? List.length names)%nat.
  - unfold _print_comparison_table. rewrite min_positive_zeros.
    + by eexists.
    + clear -Hall. induction Hall as [|r rs (H0 & _) _ IH]; simpl;
        constructor; done.
  - exists results. by split_and!.
Qed.

(** ** The display names *)

(** X24. Every display name comes from a definition with that short
    name: it is the [display_name] of the definition or, when the
    definition has none, the short name in title case. *)
Theorem X24_display_name_or_title
    (d : dict (dict string)) (k dn : string) :
  dict_get k (display_names_of d) = Some dn ->
  exists full def,
    In (full, def) d
    /\ dict_get "name" def = Some k
    /\ dn = match dict_get "display_name" def with
            | Some name => name
            | None => title k
            end.
Proof.
  induction d as [|[f def] d IH] using rev_ind; [done|].
  rewrite display_names_of_snoc.
  assert (Hold : dict_get k (display_names_of d) = Some dn ->
                 exists full def0,
                   In (full, def0) (d ++ [(f, def)])
                   /\ dict_get "name" def0 = Some k
                   /\ dn = match dict_get "display_name" def0 with
                           | Some name => name
                           | None => title k
                           end).
  { intros H. destruct (IH H) as (full & def0 & Hin & Hn & Hd).
    exists full, def0. split_and!; [apply in_app_iff; by left | done..]. }
  destruct (truthy (dict_get "name" def)) eqn:T; [|done].
  apply truthy_Some in T as (s & Hs & Hne). rewrite Hs. simpl.
  destruct (string_dec s k) as [->|Hsk].
  - rewrite dict_get_set_eq. intros [= <-]. exists f, def.
    split_and!; [apply in_app_iff; right; by left | done |].
    unfold dict_get_default. by rewrite Hs.
  - by rewrite dict_get_set_ne.
Qed.

Lemma X24_witness :
  exists full def,
    In (full, def) [("subject", [("name", "sub")])]
    /\ dict_get "name" def = Some "sub"
    /\ "Sub" = match dict_get "display_name" def with
               | Some name => name
               | None => title "sub"
               end.
Proof.
  apply (X24_display_name_or_title [("subject", [("name", "sub")])]
           "sub" "Sub").
  vm_compute. reflexivity.
Defined.
